(** * Guest registry over MySQL: a model of [hotelmgmt.PY]

    The program is a command-line front end to one MySQL table.  The
    development embeds, in this order,
    - the Python primitives the program relies on ([int], [str.lower],
      truthiness, the format specifications used in f-strings),
    - the MySQL statements the program sends, run against a server that
      holds the [customers] table declared by [setup_database],
    - the five functions of the program, as computations on a world made
      of the server, the session handles, the console and the activity of
      the rest of the world (other sessions, storage faults),
    and then states and proves the properties of the registry. *)

From Stdlib Require Import ZArith List String Ascii Bool Lia.
From Stdlib Require Import Sorting.Sorted Sorting.Permutation.
From Stdlib Require Import DecimalString.
Import ListNotations.

Local Open Scope string_scope.
Local Open Scope Z_scope.

(** ** Python primitives

    Text is ASCII text: a [str] is a [string], one character per byte. *)

Module Py.

(** The newline character, as in the ["\n"] of the program's literals. *)
Definition nl : string := String (ascii_of_nat 10) EmptyString.

(** Truth value of a [str]: the empty string is false. *)
Definition truthy_str (s : string) : bool :=
  match s with
  | EmptyString => false
  | String _ _ => true
  end.

(** Truth value of an [int]: zero is false. *)
Definition truthy_int (z : Z) : bool := negb (z =? 0).

(** The builtin [all] on a list of truth values. *)
Definition all (l : list bool) : bool := forallb (fun b => b) l.

(** [str.lower] on ASCII text. *)
Definition lower_ascii (c : ascii) : ascii :=
  let n := nat_of_ascii c in
  if ((65 <=? n) && (n <=? 90))%nat then ascii_of_nat (n + 32) else c.

Fixpoint lower (s : string) : string :=
  match s with
  | EmptyString => EmptyString
  | String c s' => String (lower_ascii c) (lower s')
  end.

(** [str(z)] for an [int]. *)
Definition str (z : Z) : string := NilZero.string_of_int (Z.to_int z).

(** [s * n] for a [str]. *)
Fixpoint repeat (s : string) (n : nat) : string :=
  match n with
  | O => EmptyString
  | S n' => s ++ repeat s n'
  end.

(** The format specification [:<w]: left-aligned in a field of width
    [w], padded with spaces, never truncated. *)
Definition ljust (w : nat) (s : string) : string :=
  s ++ repeat " " (w - String.length s).

(** A field of [strftime] padded with zeros to [w] digits. *)
Definition zfill (w : nat) (n : nat) : string :=
  let s := NilZero.string_of_uint (Nat.to_uint n) in
  repeat "0" (w - String.length s) ++ s.

(** [datetime.datetime], to the second. *)
Record datetime : Type := mkDatetime
  { year : nat; month : nat; day : nat;
    hour : nat; minute : nat; second : nat }.

(** [d.strftime('%Y-%m-%d %H:%M:%S')]. *)
Definition strftime (d : datetime) : string :=
  zfill 4 (year d) ++ "-" ++ zfill 2 (month d) ++ "-" ++ zfill 2 (day d)
  ++ " " ++ zfill 2 (hour d) ++ ":" ++ zfill 2 (minute d) ++ ":"
  ++ zfill 2 (second d).

(** *** [int(s)] on text

    [int] skips white space at both ends, reads an optional sign and
    then decimal digits, where single underscores may separate digits.
    A text of more than 4300 digits is refused.  Anything else is a
    [ValueError], here [None]. *)

(** The white space that [int] skips: the characters 9 to 13 and the
    space.  The separators 28 to 31 are not skipped, although
    [str.isspace] holds of them.  Of the characters beyond ASCII that a
    [string] can hold, [int] skips the next-line character 133 and the
    no-break space 160. *)
Definition is_space (c : ascii) : bool :=
  let n := nat_of_ascii c in
  (((9 <=? n) && (n <=? 13)) || (n =? 32) || (n =? 133) || (n =? 160))%nat.

Definition digit_val (c : ascii) : option Z :=
  let n := nat_of_ascii c in
  if ((48 <=? n) && (n <=? 57))%nat then Some (Z.of_nat (n - 48)) else None.

Fixpoint lstrip (l : list ascii) : list ascii :=
  match l with
  | c :: l' => if is_space c then lstrip l' else l
  | [] => []
  end.

Definition strip (l : list ascii) : list ascii :=
  rev (lstrip (rev (lstrip l))).

(** [after_digit] tells whether the previous character was a digit: an
    underscore is accepted only between two digits. *)
Fixpoint digits (after_digit : bool) (acc : Z) (l : list ascii) : option Z :=
  match l with
  | [] => if after_digit then Some acc else None
  | c :: l' =>
      if Ascii.eqb c "_"
      then (if after_digit then digits false acc l' else None)
      else match digit_val c with
           | Some d => digits true (10 * acc + d) l'
           | None => None
           end
  end.

(** [sys.int_info.default_max_str_digits]: the most digits, leading
    zeros included and underscores left out, that [int] converts. *)
Definition max_str_digits : Z := 4300.

Fixpoint count_digits (l : list ascii) : Z :=
  match l with
  | [] => 0
  | c :: l' =>
      match digit_val c with
      | Some _ => 1 + count_digits l'
      | None => count_digits l'
      end
  end.

(** The digits after the sign. *)
Definition magnitude (l : list ascii) : option Z :=
  if max_str_digits <? count_digits l then None else digits false 0 l.

Definition int (s : string) : option Z :=
  match strip (list_ascii_of_string s) with
  | c :: l =>
      if Ascii.eqb c "+" then magnitude l
      else if Ascii.eqb c "-" then option_map Z.opp (magnitude l)
      else magnitude (c :: l)
  | [] => None
  end.

End Py.

(** ** The MySQL server

    One server, holding at most the database [hotel_db] with at most the
    table [customers].  The columns and constraints are those of the
    [CREATE TABLE] statement in [setup_database]; the server runs in its
    default strict mode, in which a value that does not fit its column is
    an error, unless all that does not fit is trailing spaces. *)

Module MySQL.

(** A row of [customers]. *)
Record customer : Type := mkCustomer
  { id : Z;
    name : string;
    contact : string;
    address : string;
    room_number : Z;
    check_in_date : Py.datetime }.

(** The table: its rows in insertion order and its AUTO_INCREMENT
    counter. *)
Record table : Type := mkTable
  { rows : list customer;
    auto_increment : Z }.

Definition empty_table : table := mkTable [] 1.

(** [hotel_db] is [None] while the database does not exist, [Some None]
    while it exists without the table. *)
Record server : Type := mkServer
  { hotel_db : option (option table);
    now : Py.datetime }.

(** [mysql.connector.Error]: the error number and its text. *)
Record error : Type := mkError
  { errno : Z;
    errtext : string }.

Definition ER_DB_CREATE_EXISTS : Z := 1007.
Definition ER_BAD_DB_ERROR : Z := 1049.
Definition ER_DUP_ENTRY : Z := 1062.
Definition ER_NO_SUCH_TABLE : Z := 1146.
Definition ER_WARN_DATA_OUT_OF_RANGE : Z := 1264.
Definition ER_DATA_TOO_LONG : Z := 1406.

(** The rows of [customers], none while the table does not exist. *)
Definition registry (s : server) : list customer :=
  match hotel_db s with
  | Some (Some t) => rows t
  | _ => []
  end.

Definition the_table (s : server) : error + table :=
  match hotel_db s with
  | Some (Some t) => inr t
  | _ => inl (mkError ER_NO_SUCH_TABLE
                "1146 (42S02): Table 'hotel_db.customers' doesn't exist")
  end.

Definition with_table (s : server) (t : table) : server :=
  mkServer (Some (Some t)) (now s).

(** [CREATE DATABASE hotel_db DEFAULT CHARACTER SET 'utf8'] *)
Definition create_database (s : server) : error + server :=
  match hotel_db s with
  | Some _ =>
      inl (mkError ER_DB_CREATE_EXISTS
             "1007 (HY000): Can't create database 'hotel_db'; database exists")
  | None => inr (mkServer (Some None) (now s))
  end.

(** Opening a session on [hotel_db]. *)
Definition use_database (s : server) : error + unit :=
  match hotel_db s with
  | Some _ => inr tt
  | None => inl (mkError ER_BAD_DB_ERROR
                "1049 (42000): Unknown database 'hotel_db'")
  end.

(** [CREATE TABLE IF NOT EXISTS customers (...)] *)
Definition create_table_if_not_exists (s : server) : error + server :=
  match hotel_db s with
  | Some (Some _) => inr s
  | Some None => inr (with_table s empty_table)
  | None => inl (mkError ER_BAD_DB_ERROR
                "1049 (42000): Unknown database 'hotel_db'")
  end.

(** The column types: [VARCHAR(255)], [VARCHAR(20)], [TEXT], [INT].
    [fits] names the first column, if any, whose value is longer than
    the column or outside its range: when there is none, the store keeps
    every value as it is. *)
Definition fits (n c a : string) (r : Z) : option string :=
  if 255 <? Z.of_nat (String.length n) then Some "name"
  else if 20 <? Z.of_nat (String.length c) then Some "contact"
  else if 65535 <? Z.of_nat (String.length a) then Some "address"
  else if (r <? -2147483648) || (2147483647 <? r) then Some "room_number"
  else None.

(** What a text column of length [limit] keeps of a value: its first
    [limit] characters. *)
Fixpoint stored (limit : Z) (s : string) : string :=
  match s with
  | EmptyString => EmptyString
  | String ch s' =>
      if 0 <? limit then String ch (stored (limit - 1) s') else EmptyString
  end.

(** The characters of a value beyond the length of its column. *)
Fixpoint excess (limit : Z) (s : string) : string :=
  match s with
  | EmptyString => EmptyString
  | String _ s' => if 0 <? limit then excess (limit - 1) s' else s
  end.

Fixpoint blank (s : string) : bool :=
  match s with
  | EmptyString => true
  | String ch s' => Ascii.eqb ch " " && blank s'
  end.

Definition data_too_long (column : string) : error :=
  mkError ER_DATA_TOO_LONG
    ("1406 (22001): Data too long for column '" ++ column ++ "' at row 1").

(** The error, if any, that the values of a new row raise.  An excess
    of trailing spaces is cut off with a note, in every SQL mode; any
    other excess is error 1406 and a number outside [INT] is error 1264,
    as the strict mode has it. *)
Definition refused (n c a : string) (r : Z) : option error :=
  if negb (blank (excess 255 n)) then Some (data_too_long "name")
  else if negb (blank (excess 20 c)) then Some (data_too_long "contact")
  else if negb (blank (excess 65535 a)) then Some (data_too_long "address")
  else if (r <? -2147483648) || (2147483647 <? r)
  then Some (mkError ER_WARN_DATA_OUT_OF_RANGE
               ("1264 (22003): Out of range value for column 'room_number'"
                ++ " at row 1"))
  else None.

(** A row with this room number exists: the room is Occupied. *)
Definition occupied (r : Z) (l : list customer) : bool :=
  existsb (fun c => room_number c =? r) l.

(** [INSERT INTO customers (name, contact, address, room_number)
    VALUES (%s, %s, %s, %s)]: the values are checked against their
    columns before the row is written; the store assigns [id] from the
    counter and [check_in_date] from its clock; [room_number] is
    UNIQUE. *)
Definition insert (n c a : string) (r : Z) (s : server) : error + server :=
  match the_table s with
  | inl e => inl e
  | inr t =>
      match refused n c a r with
      | Some e => inl e
      | None =>
          if occupied r (rows t)
          then inl (mkError ER_DUP_ENTRY
                 ("1062 (23000): Duplicate entry '" ++ Py.str r
                  ++ "' for key 'customers.room_number'"))
          else
            let row := mkCustomer (auto_increment t) (stored 255 n)
                         (stored 20 c) (stored 65535 a) r (now s) in
            inr (with_table s
                   (mkTable (rows t ++ [row])%list (auto_increment t + 1)))
      end
  end.

(** [ORDER BY room_number]: a stable insertion sort on the column. *)
Fixpoint insert_by_room (c : customer) (l : list customer) : list customer :=
  match l with
  | [] => [c]
  | d :: l' =>
      if room_number c <=? room_number d
      then c :: l
      else d :: insert_by_room c l'
  end.

Definition order_by_room_number (l : list customer) : list customer :=
  fold_right insert_by_room [] l.

Definition where_room_number (r : Z) (l : list customer) : list customer :=
  filter (fun c => room_number c =? r) l.

(** [SELECT id, name, contact, room_number, check_in_date FROM customers
    ORDER BY room_number] *)
Definition select_all (s : server)
  : error + list (Z * string * string * Z * Py.datetime) :=
  match the_table s with
  | inl e => inl e
  | inr t =>
      inr (map (fun c => (id c, name c, contact c, room_number c,
                          check_in_date c))
             (order_by_room_number (rows t)))
  end.

(** [SELECT id, name, contact, address, room_number, check_in_date FROM
    customers WHERE room_number = %s] *)
Definition select_by_room (r : Z) (s : server)
  : error + list (Z * string * string * string * Z * Py.datetime) :=
  match the_table s with
  | inl e => inl e
  | inr t =>
      inr (map (fun c => (id c, name c, contact c, address c,
                          room_number c, check_in_date c))
             (where_room_number r (rows t)))
  end.

(** [SELECT name FROM customers WHERE room_number = %s] *)
Definition select_name (r : Z) (s : server) : error + list string :=
  match the_table s with
  | inl e => inl e
  | inr t => inr (map name (where_room_number r (rows t)))
  end.

(** [DELETE FROM customers WHERE room_number = %s], with the number of
    rows removed. *)
Definition delete (r : Z) (s : server) : error + (server * Z) :=
  match the_table s with
  | inl e => inl e
  | inr t =>
      inr (with_table s
             (mkTable
                (filter (fun c => negb (room_number c =? r)) (rows t))
                (auto_increment t)),
           Z.of_nat (List.length (where_room_number r (rows t))))
  end.

(** *** The rest of the world

    Between two statements of this session, other terminals running the
    same program may have checked a guest in or out, and time may have
    passed. *)
Inductive activity : Type :=
| OtherCheckIn (n c a : string) (r : Z)
| OtherCheckOut (r : Z)
| Tick (t : Py.datetime).

Definition act (a : activity) (s : server) : server :=
  match a with
  | OtherCheckIn n c ad r =>
      if Py.all [Py.truthy_str n; Py.truthy_str c; Py.truthy_str ad;
                 Py.truthy_int r]
      then match insert n c ad r s with
           | inr s' => s'
           | inl _ => s
           end
      else s
  | OtherCheckOut r =>
      match delete r s with
      | inr (s', _) => s'
      | inl _ => s
      end
  | Tick t => mkServer (hotel_db s) t
  end.

(** What reaches the server before a statement of this session is run,
    and the fault, if any, that makes the statement fail. *)
Record event : Type := mkEvent
  { others : list activity;
    fault : option error }.

(** The server once the activity of [e] has reached it. *)
Definition meanwhile (e : event) (s : server) : server :=
  fold_left (fun s a => act a s) (others e) s.

Definition quiet (e : event) : bool :=
  match others e, fault e with
  | [], None => true
  | _, _ => false
  end.

End MySQL.

(** ** The program *)

(** The exceptions the program meets: [ValueError] from [int],
    [EOFError] from [input] at the end of the input, and
    [mysql.connector.Error]. *)
Inductive exn : Type :=
| ValueError
| EOFError
| Error (err : MySQL.error).

(** What the program writes: the lines of [print] and the prompts of
    [input]. *)
Inductive output : Type :=
| Line (s : string)
| Prompt (s : string).

(** What the program sends to the server. *)
Inductive statement : Type :=
| CONNECT
| CONNECT_DATABASE
| CREATE_DATABASE
| CREATE_TABLE_IF_NOT_EXISTS
| INSERT (name contact address : string) (room_number : Z)
| SELECT_ALL
| SELECT_BY_ROOM (room_number : Z)
| SELECT_NAME (room_number : Z)
| DELETE (room_number : Z)
| COMMIT.

(** A session handle: its index in [sessions]. *)
Definition handle : Type := nat.

Record world : Type := mkWorld
  { server : MySQL.server;
    schedule : list MySQL.event;
    sessions : list bool;
    sent : list statement;
    stdin : list string;
    stdout : list output }.

Inductive result (A : Type) : Type :=
| Return (a : A)
| Raise (e : exn).
Arguments Return {A} a.
Arguments Raise {A} e.

(** A computation changes the world and returns or raises; what it did
    before raising stays done. *)
Definition M (A : Type) : Type := world -> result A * world.

Definition ret {A} (a : A) : M A := fun w => (Return a, w).

Definition raise {A} (e : exn) : M A := fun w => (Raise e, w).

Definition bind {A B} (c : M A) (k : A -> M B) : M B :=
  fun w =>
    match c w with
    | (Return a, w') => k a w'
    | (Raise e, w') => (Raise e, w')
    end.

Declare Scope py_scope.
Delimit Scope py_scope with py.
Notation "x <- c ;; k" := (bind c (fun x => k))
  (at level 61, c at next level, right associativity) : py_scope.
Notation "c ;; k" := (bind c (fun _ => k))
  (at level 61, right associativity) : py_scope.
Local Open Scope py_scope.

(** [try: body except ...: handler]: the handler answers [None] for the
    exceptions no clause matches, which then propagate. *)
Definition try_except {A} (body : M A) (handler : exn -> option (M A)) : M A :=
  fun w =>
    match body w with
    | (Return a, w') => (Return a, w')
    | (Raise e, w') =>
        match handler e with
        | Some h => h w'
        | None => (Raise e, w')
        end
    end.

Fixpoint for_each {A} (l : list A) (body : A -> M unit) : M unit :=
  match l with
  | [] => ret tt
  | a :: l' => body a ;; for_each l' body
  end.

(** *** Console *)

Definition print (s : string) : M unit :=
  fun w =>
    (Return tt,
     mkWorld (server w) (schedule w) (sessions w) (sent w) (stdin w)
       (stdout w ++ [Line s])%list).

(** [input(prompt)]: the prompt is written and the next line of the
    console, a line of text, is returned; at the end of the input
    [EOFError] is raised. *)
Definition input (prompt : string) : M string :=
  fun w =>
    let out := (stdout w ++ [Prompt prompt])%list in
    match stdin w with
    | [] =>
        (Raise EOFError,
         mkWorld (server w) (schedule w) (sessions w) (sent w) [] out)
    | l :: rest =>
        (Return l,
         mkWorld (server w) (schedule w) (sessions w) (sent w) rest out)
    end.

Definition int (s : string) : M Z :=
  match Py.int s with
  | Some z => ret z
  | None => raise ValueError
  end.

(** *** Sessions *)

(** The world once the server, now in state [s], has answered [q]. *)
Definition served (q : statement) (s : MySQL.server) (w : world) : world :=
  mkWorld s (tl (schedule w)) (sessions w) (sent w ++ [q])%list
    (stdin w) (stdout w).

(** One exchange with the server: the statement is sent, what the rest of
    the world did meanwhile reaches the server first, and the statement
    then fails with the scheduled fault or runs. *)
Definition execute {A} (q : statement)
    (run : MySQL.server -> MySQL.error + (MySQL.server * A)) : M A :=
  fun w =>
    let e := hd (MySQL.mkEvent [] None) (schedule w) in
    let s := MySQL.meanwhile e (server w) in
    match MySQL.fault e with
    | Some err => (Raise (Error err), served q s w)
    | None =>
        match run s with
        | inl err => (Raise (Error err), served q s w)
        | inr (s', a) => (Return a, served q s' w)
        end
    end.

Definition query {A} (f : MySQL.server -> MySQL.error + A)
  : MySQL.server -> MySQL.error + (MySQL.server * A) :=
  fun s => match f s with inl e => inl e | inr a => inr (s, a) end.

Definition update (f : MySQL.server -> MySQL.error + MySQL.server)
  : MySQL.server -> MySQL.error + (MySQL.server * unit) :=
  fun s => match f s with inl e => inl e | inr s' => inr (s', tt) end.

Definition open_session : M handle :=
  fun w =>
    (Return (List.length (sessions w)),
     mkWorld (server w) (schedule w) (sessions w ++ [true])%list (sent w)
       (stdin w) (stdout w)).

(** [mysql.connector.connect(user=..., password=..., host=...)]: the
    credentials come from [config.py]; whether the server accepts them is
    a matter of the schedule. *)
Definition connect : M handle :=
  execute CONNECT (fun s => inr (s, tt)) ;; open_session.

(** [mysql.connector.connect] with [database=DB_NAME]: the session is
    bound to [hotel_db], which must exist. *)
Definition connect_database : M handle :=
  execute CONNECT_DATABASE (query MySQL.use_database) ;; open_session.

Definition is_connected (conn : handle) : M bool :=
  fun w => (Return (nth conn (sessions w) false), w).

Fixpoint set_nth {A} (n : nat) (a : A) (l : list A) : list A :=
  match l, n with
  | [], _ => []
  | _ :: l', O => a :: l'
  | b :: l', S n' => b :: set_nth n' a l'
  end.

(** [conn.close()] *)
Definition close (conn : handle) : M unit :=
  fun w =>
    (Return tt,
     mkWorld (server w) (schedule w) (set_nth conn false (sessions w))
       (sent w) (stdin w) (stdout w)).

(** [conn.cursor()], which a closed session refuses. *)
Definition cursor (conn : handle) : M unit :=
  connected <- is_connected conn ;;
  if connected then ret tt
  else raise (Error (MySQL.mkError (-1) "MySQL Connection not available.")).

(** [conn.commit()] *)
Definition commit (conn : handle) : M unit :=
  execute COMMIT (fun s => inr (s, tt)).

(** [cursor.fetchone()] on the rows a SELECT returned. *)
Definition fetchone {A} (rows : list A) : option A := hd_error rows.

(** *** [setup_database] *)

Definition setup_database : M (option handle) :=
  try_except
    (server_conn <- connect ;;
     cursor server_conn ;;
     try_except
       (execute CREATE_DATABASE (update MySQL.create_database))
       (fun e =>
          match e with
          | Error err =>
              Some (if MySQL.errno err =? MySQL.ER_DB_CREATE_EXISTS
                    then ret tt
                    else raise (Error err))
          | _ => None
          end) ;;
     close server_conn ;;
     db_conn <- connect_database ;;
     cursor db_conn ;;
     print "Ensuring 'customers' table exists..." ;;
     execute CREATE_TABLE_IF_NOT_EXISTS
       (update MySQL.create_table_if_not_exists) ;;
     print "Database and table are ready." ;;
     ret (Some db_conn))
    (fun e =>
       match e with
       | Error err =>
           Some (print ("Database setup error: " ++ MySQL.errtext err) ;;
                 ret None)
       | _ => None
       end).

(** *** [check_in_customer]

    The clause for [mysql.connector.Error] reads [room_number], which is
    bound once [int] has returned; no statement before that point raises
    such an error, so the clause is attached to the statements after it. *)

Definition check_in_customer (conn : handle) : M unit :=
  print (Py.nl ++ "--- New Customer Check-In ---") ;;
  try_except
    (name <- input "Enter customer's full name: " ;;
     contact <- input "Enter contact number: " ;;
     address <- input "Enter address: " ;;
     text <- input "Enter allocated room number: " ;;
     room_number <- int text ;;
     try_except
       (if negb (Py.all [Py.truthy_str name; Py.truthy_str contact;
                         Py.truthy_str address; Py.truthy_int room_number])
        then print "Error: All fields are required."
        else
          cursor conn ;;
          execute (INSERT name contact address room_number)
            (update (MySQL.insert name contact address room_number)) ;;
          commit conn ;;
          print (Py.nl ++ "Success! Customer '" ++ name
                 ++ "' checked into room " ++ Py.str room_number ++ "."))
       (fun e =>
          match e with
          | Error err =>
              Some (if MySQL.errno err =? 1062
                    then print (Py.nl ++ "Error: Room number '"
                                ++ Py.str room_number ++ "' is already in use.")
                    else print ("An error occurred: " ++ MySQL.errtext err))
          | _ => None
          end))
    (fun e =>
       match e with
       | ValueError =>
           Some (print (Py.nl
                        ++ "Invalid input. Room number must be an integer."))
       | _ => None
       end).

(** *** [view_all_customers] *)

Definition customer_line
    (customer : Z * string * string * Z * Py.datetime) : string :=
  let '(c0, c1, c2, c3, c4) := customer in
  let check_in_str := Py.strftime c4 in
  Py.ljust 5 (Py.str c0) ++ " | " ++ Py.ljust 25 c1 ++ " | "
  ++ Py.ljust 15 c2 ++ " | " ++ Py.ljust 10 (Py.str c3) ++ " | "
  ++ Py.ljust 20 check_in_str.

Definition view_all_customers (conn : handle) : M unit :=
  print (Py.nl ++ "--- All Checked-In Customers ---") ;;
  try_except
    (cursor conn ;;
     customers <- execute SELECT_ALL (query MySQL.select_all) ;;
     match customers with
     | [] => print "No customers are currently checked in."
     | _ :: _ =>
         print (Py.ljust 5 "ID" ++ " | " ++ Py.ljust 25 "Name" ++ " | "
                ++ Py.ljust 15 "Contact" ++ " | " ++ Py.ljust 10 "Room No."
                ++ " | " ++ Py.ljust 20 "Check-In Date") ;;
         print (Py.repeat "-" 85) ;;
         for_each customers (fun customer => print (customer_line customer))
     end)
    (fun e =>
       match e with
       | Error err =>
           Some (print ("An error occurred while fetching data: "
                        ++ MySQL.errtext err))
       | _ => None
       end).

(** *** [find_customer] *)

Definition find_customer (conn : handle) : M unit :=
  print (Py.nl ++ "--- Find a Customer ---") ;;
  try_except
    (text <- input "Enter the room number to find: " ;;
     room_number <- int text ;;
     cursor conn ;;
     found <- execute (SELECT_BY_ROOM room_number)
                (query (MySQL.select_by_room room_number)) ;;
     match fetchone found with
     | Some (c0, c1, c2, c3, c4, c5) =>
         print (Py.nl ++ "Customer Found:") ;;
         print (Py.repeat "-" 20) ;;
         print ("  ID: " ++ Py.str c0) ;;
         print ("  Name: " ++ c1) ;;
         print ("  Contact: " ++ c2) ;;
         print ("  Address: " ++ c3) ;;
         print ("  Room Number: " ++ Py.str c4) ;;
         print ("  Check-In Date: " ++ Py.strftime c5) ;;
         print (Py.repeat "-" 20)
     | None =>
         print ("No customer found in room number " ++ Py.str room_number
                ++ ".")
     end)
    (fun e =>
       match e with
       | ValueError =>
           Some (print "Invalid input. Please enter a valid room number.")
       | Error err => Some (print ("An error occurred: " ++ MySQL.errtext err))
       | _ => None
       end).

(** *** [check_out_customer] *)

Definition check_out_customer (conn : handle) : M unit :=
  print (Py.nl ++ "--- Customer Check-Out ---") ;;
  try_except
    (text <- input "Enter room number for check-out: " ;;
     room_number <- int text ;;
     cursor conn ;;
     names <- execute (SELECT_NAME room_number)
                (query (MySQL.select_name room_number)) ;;
     match fetchone names with
     | None =>
         print ("Error: Room " ++ Py.str room_number ++ " is not occupied.")
     | Some customer_name =>
         answer <- input ("Check out customer '" ++ customer_name
                          ++ "' from room " ++ Py.str room_number
                          ++ "? (y/n): ") ;;
         let confirm := Py.lower answer in
         if String.eqb confirm "y"
         then
           rowcount <- execute (DELETE room_number)
                         (MySQL.delete room_number) ;;
           commit conn ;;
           if rowcount >? 0
           then print ("Success! Customer from room " ++ Py.str room_number
                       ++ " has been checked out.")
           else print "Could not process check-out."
         else print "Check-out cancelled."
     end)
    (fun e =>
       match e with
       | ValueError =>
           Some (print "Invalid input. Please enter a valid room number.")
       | Error err => Some (print ("An error occurred: " ++ MySQL.errtext err))
       | _ => None
       end).

(** *** [main] *)

Definition menu : M string :=
  print (Py.nl ++ "===================================") ;;
  print "   Hotel Management System Menu" ;;
  print "===================================" ;;
  print "1. Check-In New Customer" ;;
  print "2. View All Customers" ;;
  print "3. Find a Customer" ;;
  print "4. Check-Out Customer" ;;
  print "5. Exit" ;;
  print "-----------------------------------" ;;
  input "Enter your choice (1-5): ".

(** One pass through the body of [while True]: [true] after [break]. *)
Definition iteration (conn : handle) : M bool :=
  choice <- menu ;;
  if String.eqb choice "1" then check_in_customer conn ;; ret false
  else if String.eqb choice "2" then view_all_customers conn ;; ret false
  else if String.eqb choice "3" then find_customer conn ;; ret false
  else if String.eqb choice "4" then check_out_customer conn ;; ret false
  else if String.eqb choice "5"
  then print "Exiting the system. Goodbye!" ;; ret true
  else print "Invalid choice. Please select a valid option." ;; ret false.

(** [while True: ...], with a bound on the number of passes; [None] when
    the bound is reached. *)
Fixpoint loop (fuel : nat) (conn : handle) (w : world)
  : option (result unit * world) :=
  match fuel with
  | O => None
  | S fuel' =>
      match iteration conn w with
      | (Raise e, w') => Some (Raise e, w')
      | (Return true, w') => Some (Return tt, w')
      | (Return false, w') => loop fuel' conn w'
      end
  end.

(** Every pass reads a line, so one pass more than there are lines is
    enough. *)
Definition main (w : world) : option (result unit * world) :=
  match setup_database w with
  | (Raise e, w') => Some (Raise e, w')
  | (Return None, w') =>
      Some (print "Exiting due to database connection failure." w')
  | (Return (Some conn), w') =>
      match loop (S (List.length (stdin w'))) conn w' with
      | None => None
      | Some (Raise e, w'') => Some (Raise e, w'')
      | Some (Return _, w'') =>
          Some ((connected <- is_connected conn ;;
                 if connected
                 then close conn ;; print "MySQL connection is closed."
                 else ret tt) w'')
      end
  end.

(** ** Vocabulary of the properties *)

(** Nothing is scheduled to disturb this session: no other session acts
    and no statement meets a fault. *)
Definition calm (w : world) : Prop :=
  forallb MySQL.quiet (schedule w) = true.

(** The table [customers] exists. *)
Definition provisioned (s : MySQL.server) : bool :=
  match MySQL.hotel_db s with
  | Some (Some _) => true
  | _ => false
  end.

(** [conn] is an open session on a provisioned store in a calm world: the
    situation [setup_database] hands over to the registry operations. *)
Definition serving (conn : handle) (w : world) : Prop :=
  nth conn (sessions w) false = true
  /\ provisioned (server w) = true
  /\ calm w.

(** The truth values the presence check of [check_in_customer] looks at,
    for a stored row. *)
Definition presentable (c : MySQL.customer) : bool :=
  Py.all [Py.truthy_str (MySQL.name c); Py.truthy_str (MySQL.contact c);
          Py.truthy_str (MySQL.address c);
          Py.truthy_int (MySQL.room_number c)].

(** Every row went through the presence check: the registry holds what
    check-ins stored. *)
Definition checked_in (l : list MySQL.customer) : Prop :=
  Forall (fun c => presentable c = true) l.

(** Rooms in ascending order. *)
Definition by_room (c d : MySQL.customer) : Prop :=
  MySQL.room_number c <= MySQL.room_number d.

(** The columns that [view_all_customers] selects. *)
Definition listed (c : MySQL.customer)
  : Z * string * string * Z * Py.datetime :=
  (MySQL.id c, MySQL.name c, MySQL.contact c, MySQL.room_number c,
   MySQL.check_in_date c).

(** The world [w] with another schedule. *)
Definition with_schedule (sch : list MySQL.event) (w : world) : world :=
  mkWorld (server w) sch (sessions w) (sent w) (stdin w) (stdout w).

(** The counter of the table, from which the next [id] is taken. *)
Definition next_id (s : MySQL.server) : Z :=
  match MySQL.hotel_db s with
  | Some (Some t) => MySQL.auto_increment t
  | _ => 1
  end.

(** A relation between the world before and after holds of every run of
    a computation. *)
Definition respects (R : world -> world -> Prop) {A} (c : M A) : Prop :=
  forall w, R w (snd (c w)).

(** A computation reads lines from the console and never puts one back. *)
Definition reads (w w' : world) : Prop :=
  (List.length (stdin w') <= List.length (stdin w))%nat.

(** A computation opens and closes no session. *)
Definition undisturbed (w w' : world) : Prop := sessions w' = sessions w.

(** A computation leaves in the registry only what check-ins stored. *)
Definition keeps (w w' : world) : Prop :=
  checked_in (MySQL.registry (server w)) ->
  checked_in (MySQL.registry (server w')).

(** Sample data: the clock of the sample server, a server that holds no
    database yet with the given lines waiting on the console, three
    guests, and the front desk once [setup_database] has returned
    session 1, with the given rows, schedule and console input. *)
Definition opening : Py.datetime := Py.mkDatetime 2024 3 9 7 5 0.

Definition fresh (lines : list string) : world :=
  mkWorld (MySQL.mkServer None opening) [] [] [] lines [].

Definition alice : MySQL.customer :=
  MySQL.mkCustomer 1 "Alice Tan" "555-0100" "1 Main St" 101 opening.

Definition carol : MySQL.customer :=
  MySQL.mkCustomer 2 "Carol Diaz" "555-0102" "3 Elm Rd" 305 opening.

Definition dan : MySQL.customer :=
  MySQL.mkCustomer 3 "Dan Wu" "555-0103" "4 Pine Ct" 220 opening.

Definition desk : handle := 1%nat.

Definition front_desk (guests : list MySQL.customer)
    (sch : list MySQL.event) (lines : list string) : world :=
  let table := MySQL.mkTable guests (Z.of_nat (List.length guests) + 1) in
  mkWorld (MySQL.mkServer (Some (Some table)) opening)
    sch [false; true] [] lines [].

(** [c] raises only exceptions that satisfy [P]. *)
Definition raises {A} (P : exn -> Prop) (c : M A) : Prop :=
  forall w e, fst (c w) = Raise e -> P e.

(** The exceptions that do not come from the store. *)
Definition not_from_the_store (e : exn) : Prop :=
  e = ValueError \/ e = EOFError.

(** The exceptions that come from the store. *)
Definition from_the_store (e : exn) : Prop := exists err, e = Error err.

(** What [menu] writes before it reads the choice. *)
Definition menu_lines : list output :=
  [Line (Py.nl ++ "===================================");
   Line "   Hotel Management System Menu";
   Line "===================================";
   Line "1. Check-In New Customer";
   Line "2. View All Customers";
   Line "3. Find a Customer";
   Line "4. Check-Out Customer";
   Line "5. Exit";
   Line "-----------------------------------";
   Prompt "Enter your choice (1-5): "].

(** An invariant of the server holds after a computation if it held
    before. *)
Definition preserves (I : MySQL.server -> Prop) (w w' : world) : Prop :=
  I (server w) -> I (server w').

(** The constraints of the table: [room_number] is UNIQUE, [id] is the
    PRIMARY KEY, and every [id] was taken from the counter. *)
Definition constrained (s : MySQL.server) : Prop :=
  NoDup (map MySQL.room_number (MySQL.registry s))
  /\ NoDup (map MySQL.id (MySQL.registry s))
  /\ Forall (fun c => MySQL.id c < next_id s) (MySQL.registry s).

(** A sample error of the store. *)
Definition gone_away : MySQL.error :=
  MySQL.mkError 2006 "2006 (HY000): MySQL server has gone away".

(** * Properties *)

(** ** The Python primitives on sample values *)

Example int_101 : Py.int "101" = Some 101.
Proof. reflexivity. Qed.

Example int_padded : Py.int "  -007 " = Some (-7).
Proof. reflexivity. Qed.

Example int_grouped : Py.int "1_000" = Some 1000.
Proof. reflexivity. Qed.

Example int_abc : Py.int "abc" = None.
Proof. reflexivity. Qed.

Example int_empty : Py.int EmptyString = None.
Proof. reflexivity. Qed.

Example int_trailing_underscore : Py.int "1_" = None.
Proof. reflexivity. Qed.

Example int_decimal_point : Py.int "10.5" = None.
Proof. reflexivity. Qed.

Example str_negative : Py.str (-42) = "-42".
Proof. reflexivity. Qed.

Example lower_Y : Py.lower "Y" = "y".
Proof. reflexivity. Qed.

Example ljust_pads : Py.ljust 5 "12" = "12   ".
Proof. reflexivity. Qed.

Example ljust_keeps_long_text : Py.ljust 2 "12345" = "12345".
Proof. reflexivity. Qed.

Example strftime_opening : Py.strftime opening = "2024-03-09 07:05:00".
Proof. reflexivity. Qed.

Example int_unit_separator : Py.int (String (ascii_of_nat 31) "12") = None.
Proof. reflexivity. Qed.

Example int_no_break_space : Py.int (String (ascii_of_nat 160) "12") = Some 12.
Proof. reflexivity. Qed.

Example int_4300_digits : Py.int (Py.repeat "1" 4300) <> None.
Proof. vm_compute. discriminate. Qed.

Example int_4301_digits : Py.int (Py.repeat "1" 4301) = None.
Proof. vm_compute. reflexivity. Qed.

Example int_4301_zeros : Py.int (Py.repeat "0" 4301) = None.
Proof. vm_compute. reflexivity. Qed.

(** ** The columns of the table *)

Lemma stored_within (limit : Z) (s : string) :
  Z.of_nat (String.length s) <= limit -> MySQL.stored limit s = s.
Proof.
  revert limit; induction s as [|ch s IH]; intros limit H; [reflexivity|].
  cbn [MySQL.stored]; cbn [String.length] in H.
  destruct (0 <? limit) eqn:E; [|apply Z.ltb_ge in E; lia].
  rewrite IH by lia; reflexivity.
Qed.

Lemma excess_within (limit : Z) (s : string) :
  Z.of_nat (String.length s) <= limit -> MySQL.excess limit s = EmptyString.
Proof.
  revert limit; induction s as [|ch s IH]; intros limit H; [reflexivity|].
  cbn [MySQL.excess]; cbn [String.length] in H.
  destruct (0 <? limit) eqn:E; [|apply Z.ltb_ge in E; lia].
  apply IH; lia.
Qed.

(** A value is what the column keeps of it followed by what it cuts. *)
Lemma stored_excess (limit : Z) (s : string) :
  s = MySQL.stored limit s ++ MySQL.excess limit s.
Proof.
  revert limit; induction s as [|ch s IH]; intros limit; [reflexivity|].
  cbn [MySQL.stored MySQL.excess].
  destruct (0 <? limit); [|reflexivity].
  cbn [append]; rewrite <- IH; reflexivity.
Qed.

Lemma length_stored (limit : Z) (s : string) :
  0 <= limit -> Z.of_nat (String.length (MySQL.stored limit s)) <= limit.
Proof.
  revert limit; induction s as [|ch s IH]; intros limit H; [simpl; lia|].
  cbn [MySQL.stored].
  destruct (0 <? limit) eqn:E; [|simpl; lia].
  apply Z.ltb_lt in E; cbn [String.length].
  specialize (IH (limit - 1)); lia.
Qed.

(** A column of positive length keeps a non-empty value non-empty. *)
Lemma truthy_stored (limit : Z) (s : string) :
  0 < limit -> Py.truthy_str (MySQL.stored limit s) = Py.truthy_str s.
Proof.
  intros H; destruct s as [|ch s]; [reflexivity|].
  cbn [MySQL.stored]. apply Z.ltb_lt in H; rewrite H; reflexivity.
Qed.

(** Values within their columns raise no error and are kept as they
    are. *)
Lemma fits_kept (n c a : string) (r : Z) :
  MySQL.fits n c a r = None ->
  MySQL.refused n c a r = None
  /\ MySQL.stored 255 n = n /\ MySQL.stored 20 c = c
  /\ MySQL.stored 65535 a = a.
Proof.
  unfold MySQL.fits, MySQL.refused.
  destruct (255 <? _) eqn:En; [discriminate|].
  destruct (20 <? _) eqn:Ec; [discriminate|].
  destruct (65535 <? _) eqn:Ea; [discriminate|].
  destruct (_ || _); [discriminate|]; intros _.
  apply Z.ltb_ge in En, Ec, Ea.
  rewrite !excess_within, !stored_within by assumption.
  repeat split; reflexivity.
Qed.

(** What the columns cut from accepted values is spaces, and an accepted
    room number is within [INT]. *)
Lemma accepted_blank (n c a : string) (r : Z) :
  MySQL.refused n c a r = None ->
  MySQL.blank (MySQL.excess 255 n) = true
  /\ MySQL.blank (MySQL.excess 20 c) = true
  /\ MySQL.blank (MySQL.excess 65535 a) = true
  /\ -2147483648 <= r <= 2147483647.
Proof.
  unfold MySQL.refused.
  destruct (MySQL.blank (MySQL.excess 255 n)); [|discriminate].
  destruct (MySQL.blank (MySQL.excess 20 c)); [|discriminate].
  destruct (MySQL.blank (MySQL.excess 65535 a)); [|discriminate].
  cbn [negb].
  destruct (_ || _) eqn:E; [discriminate|]; intros _.
  apply orb_false_iff in E; destruct E as [E1 E2].
  apply Z.ltb_ge in E1, E2. repeat split; try reflexivity; lia.
Qed.

(** The errors of the columns are not the error of the UNIQUE key. *)
Lemma refused_errno (n c a : string) (r : Z) (e : MySQL.error) :
  MySQL.refused n c a r = Some e -> (MySQL.errno e =? 1062) = false.
Proof.
  unfold MySQL.refused.
  repeat match goal with
         | |- context [if ?b then _ else _] => destruct b
         end; intros H; inversion H; reflexivity.
Qed.

Example stored_cuts_trailing_spaces :
  MySQL.refused "Alice Tan" ("5" ++ Py.repeat " " 20) "1 Main St" 101 = None
  /\ MySQL.stored 20 ("5" ++ Py.repeat " " 20) = "5" ++ Py.repeat " " 19.
Proof. split; reflexivity. Qed.

Example refused_long_contact :
  MySQL.refused "Alice Tan" "555-0100-555-0100-555" "1 Main St" 101 =
    Some (MySQL.mkError 1406
            "1406 (22001): Data too long for column 'contact' at row 1").
Proof. reflexivity. Qed.

(** ** Stepping through a computation *)

Lemma quiet_tl (sch : list MySQL.event) :
  forallb MySQL.quiet sch = true -> forallb MySQL.quiet (tl sch) = true.
Proof.
  destruct sch as [|e sch]; simpl; [reflexivity|].
  intros H; apply andb_true_iff in H; apply H.
Qed.

Lemma execute_calm {A} (q : statement)
    (run : MySQL.server -> MySQL.error + (MySQL.server * A)) (w : world) :
  calm w ->
  execute q run w =
    match run (server w) with
    | inl err => (Raise (Error err), served q (server w) w)
    | inr (s', a) => (Return a, served q s' w)
    end.
Proof.
  unfold calm, execute; destruct (schedule w) as [|[oth flt] sch]; simpl.
  - reflexivity.
  - intros H; apply andb_true_iff in H; destruct H as [H _].
    unfold MySQL.quiet in H; simpl in H.
    destruct oth; [|discriminate]. destruct flt; [discriminate|]. reflexivity.
Qed.

Lemma execute_event {A} (q : statement)
    (run : MySQL.server -> MySQL.error + (MySQL.server * A)) (w : world)
    (e : MySQL.event) (sch : list MySQL.event) :
  schedule w = e :: sch ->
  MySQL.fault e = None ->
  execute q run w =
    match run (MySQL.meanwhile e (server w)) with
    | inl err => (Raise (Error err), served q (MySQL.meanwhile e (server w)) w)
    | inr (s', a) => (Return a, served q s' w)
    end.
Proof.
  intros Hsch Hf; unfold execute; rewrite Hsch; simpl; rewrite Hf.
  reflexivity.
Qed.

Lemma where_vacant (r : Z) (l : list MySQL.customer) :
  MySQL.occupied r l = false -> MySQL.where_room_number r l = [].
Proof.
  induction l as [|c l IH]; simpl; [reflexivity|].
  destruct (MySQL.room_number c =? r); simpl; [discriminate|exact IH].
Qed.

Lemma where_occupied (r : Z) (l : list MySQL.customer) :
  MySQL.occupied r l = true ->
  exists c l', MySQL.where_room_number r l = c :: l'
               /\ In c l /\ MySQL.room_number c = r.
Proof.
  induction l as [|c l IH]; simpl; [discriminate|].
  destruct (MySQL.room_number c =? r) eqn:E; simpl.
  - intros _; exists c, (MySQL.where_room_number r l).
    apply Z.eqb_eq in E; auto.
  - intros H; destruct (IH H) as (d & l' & H1 & H2 & H3).
    exists d, l'; auto.
Qed.

Lemma occupied_room_nonzero (r : Z) (l : list MySQL.customer) :
  checked_in l -> MySQL.occupied r l = true -> Py.truthy_int r = true.
Proof.
  intros Hall Hocc.
  destruct (where_occupied r l Hocc) as (c & l' & _ & Hin & Hr).
  unfold checked_in in Hall; rewrite Forall_forall in Hall.
  specialize (Hall c Hin); unfold presentable, Py.all in Hall; simpl in Hall.
  rewrite Hr in Hall.
  destruct (Py.truthy_str (MySQL.name c)), (Py.truthy_str (MySQL.contact c)),
    (Py.truthy_str (MySQL.address c)), (Py.truthy_int r);
    simpl in Hall; congruence.
Qed.

Arguments Py.str : simpl never.
Arguments Py.strftime : simpl never.
Arguments Py.ljust : simpl never.
Arguments Py.repeat : simpl never.
Arguments customer_line : simpl never.
Arguments Py.int : simpl never.
Arguments execute : simpl never.
Arguments MySQL.fits : simpl never.
Arguments MySQL.refused : simpl never.
Arguments MySQL.stored : simpl never.
Arguments MySQL.excess : simpl never.
Arguments MySQL.occupied : simpl never.
Arguments MySQL.where_room_number : simpl never.

Ltac step :=
  lazy beta iota zeta delta
    [bind try_except print input int cursor is_connected commit ret raise
     update query fetchone hd_error served
     server schedule sessions sent stdin stdout].

Ltac run := step; simpl.

Ltac open_world w :=
  let srv := fresh "srv" in
  destruct w as [srv ? ? ? ? ?];
  unfold serving, calm in *; simpl in *;
  try (destruct srv as [[[?|]|] ?]; cbn in *; try discriminate).

Ltac run_calm H :=
  rewrite execute_calm
    by (unfold calm; simpl; repeat apply quiet_tl; exact H);
  simpl.

(** ** Check-in *)

(** C1, as amended.  When room [R] is occupied, a check-in to [R]
    returns and leaves the rows of the registry, the record of [R] among
    them, as they were.  It is answered with the room-already-in-use
    message naming [R] when the INSERT reaches the UNIQUE key: when the
    presence check passes, as to [R] it does in a registry that holds
    what check-ins stored, and no value is refused by its column.  When
    the presence check fails the answer is the all-fields-required
    message and nothing is sent; when a column refuses its value the
    answer is the error of that column. *)
Theorem second_check_in_conflicts
    (conn : handle) (w : world) (n c a text : string) (R : Z)
    (rest : list string) :
  serving conn w ->
  MySQL.occupied R (MySQL.registry (server w)) = true ->
  Py.int text = Some R ->
  stdin w = n :: c :: a :: text :: rest ->
  let w' := snd (check_in_customer conn w) in
  let present :=
    Py.all [Py.truthy_str n; Py.truthy_str c; Py.truthy_str a;
            Py.truthy_int R] in
  let prompts :=
    [Line (Py.nl ++ "--- New Customer Check-In ---");
     Prompt "Enter customer's full name: ";
     Prompt "Enter contact number: ";
     Prompt "Enter address: ";
     Prompt "Enter allocated room number: "] in
  fst (check_in_customer conn w) = Return tt
  /\ MySQL.registry (server w') = MySQL.registry (server w)
  /\ stdin w' = rest
  /\ (checked_in (MySQL.registry (server w)) -> Py.truthy_int R = true)
  /\ (present = true ->
      MySQL.refused n c a R = None ->
      stdout w' =
        (stdout w ++ prompts ++
         [Line (Py.nl ++ "Error: Room number '" ++ Py.str R
                ++ "' is already in use.")])%list
      /\ sent w' = (sent w ++ [INSERT n c a R])%list)
  /\ (present = false ->
      stdout w' =
        (stdout w ++ prompts ++ [Line "Error: All fields are required."])%list
      /\ sent w' = sent w)
  /\ (forall err,
      present = true ->
      MySQL.refused n c a R = Some err ->
      stdout w' =
        (stdout w ++ prompts ++
         [Line ("An error occurred: " ++ MySQL.errtext err)])%list
      /\ sent w' = (sent w ++ [INSERT n c a R])%list).
Proof.
  intros (Hopen & Hprov & Hcalm) Hocc Hint Hin.
  assert (HR : checked_in (MySQL.registry (server w)) ->
               Py.truthy_int R = true)
    by (intros Hreg; exact (occupied_room_nonzero R _ Hreg Hocc)).
  open_world w; subst.
  unfold check_in_customer; run.
  rewrite Hint; run.
  destruct (Py.truthy_str n && (Py.truthy_str c && (Py.truthy_str a
             && (Py.truthy_int R && true)))) eqn:Eall; run.
  2:{ split; [reflexivity|]. split; [reflexivity|]. split; [reflexivity|].
      split; [exact HR|]. split; [intros H; discriminate H|].
      split; [|intros err H; discriminate H].
      intros _; split; [|reflexivity].
      repeat rewrite <- app_assoc; reflexivity. }
  rewrite Hopen; run. run_calm Hcalm. unfold MySQL.insert; simpl.
  destruct (MySQL.refused n c a R) as [e|] eqn:Eref; run.
  - rewrite (refused_errno _ _ _ _ _ Eref); run.
    split; [reflexivity|]. split; [reflexivity|]. split; [reflexivity|].
    split; [exact HR|]. split; [intros _ H; discriminate H|].
    split; [intros H; discriminate H|].
    intros err _ Herr; inversion Herr; subst err.
    split; [|reflexivity].
    repeat rewrite <- app_assoc; reflexivity.
  - rewrite Hocc; run.
    split; [reflexivity|]. split; [reflexivity|]. split; [reflexivity|].
    split; [exact HR|]. split; [|split].
    + intros _ _; split; [|reflexivity].
      repeat rewrite <- app_assoc; reflexivity.
    + intros H; discriminate H.
    + intros err _ H; discriminate H.
Qed.

(** C10.  A check-in to room 0 with non-empty name, contact and address
    is answered with the all-fields-required message: nothing is sent to
    the server, and the world changes only by the console. *)
Theorem room_zero_is_a_missing_field
    (conn : handle) (w : world) (n c a text : string) (rest : list string) :
  Py.truthy_str n = true -> Py.truthy_str c = true -> Py.truthy_str a = true ->
  Py.int text = Some 0 ->
  stdin w = n :: c :: a :: text :: rest ->
  check_in_customer conn w =
    (Return tt,
     mkWorld (server w) (schedule w) (sessions w) (sent w) rest
       (stdout w ++
        [Line (Py.nl ++ "--- New Customer Check-In ---");
         Prompt "Enter customer's full name: ";
         Prompt "Enter contact number: ";
         Prompt "Enter address: ";
         Prompt "Enter allocated room number: ";
         Line "Error: All fields are required."])%list).
Proof.
  intros Hn Hc Ha Hint Hin.
  destruct w as [srv sch ses snt inp out]; simpl in *; subst inp.
  unfold check_in_customer; run.
  rewrite Hint; run. rewrite Hn, Hc, Ha; run.
  repeat rewrite <- app_assoc; reflexivity.
Qed.

(** ** Look-up and check-out *)

(** C7.  On text that [int] does not parse, [find_customer] and
    [check_out_customer] report invalid input and change nothing but the
    console: no statement is sent, no event of the schedule is consumed,
    and the server and sessions are as before. *)
Theorem unparsable_room_touches_nothing
    (conn : handle) (w : world) (text : string) (rest : list string) :
  Py.int text = None ->
  stdin w = text :: rest ->
  find_customer conn w =
    (Return tt,
     mkWorld (server w) (schedule w) (sessions w) (sent w) rest
       (stdout w ++
        [Line (Py.nl ++ "--- Find a Customer ---");
         Prompt "Enter the room number to find: ";
         Line "Invalid input. Please enter a valid room number."])%list)
  /\ check_out_customer conn w =
    (Return tt,
     mkWorld (server w) (schedule w) (sessions w) (sent w) rest
       (stdout w ++
        [Line (Py.nl ++ "--- Customer Check-Out ---");
         Prompt "Enter room number for check-out: ";
         Line "Invalid input. Please enter a valid room number."])%list).
Proof.
  intros Hint Hin.
  destruct w as [srv sch ses snt inp out]; simpl in *; subst inp.
  split.
  - unfold find_customer; run. rewrite Hint; run.
    repeat rewrite <- app_assoc; reflexivity.
  - unfold check_out_customer; run. rewrite Hint; run.
    repeat rewrite <- app_assoc; reflexivity.
Qed.

(** C3.  For a vacant room [R], [find_customer] and [check_out_customer]
    both report that nobody is there.  The check-out has then sent its
    SELECT and nothing else: no DELETE, no confirmation asked, and the
    server is untouched. *)
Theorem vacant_room_is_not_found
    (conn : handle) (w : world) (text : string) (R : Z) (rest : list string) :
  serving conn w ->
  MySQL.occupied R (MySQL.registry (server w)) = false ->
  Py.int text = Some R ->
  stdin w = text :: rest ->
  find_customer conn w =
    (Return tt,
     mkWorld (server w) (tl (schedule w)) (sessions w)
       (sent w ++ [SELECT_BY_ROOM R])%list rest
       (stdout w ++
        [Line (Py.nl ++ "--- Find a Customer ---");
         Prompt "Enter the room number to find: ";
         Line ("No customer found in room number " ++ Py.str R ++ ".")])%list)
  /\ check_out_customer conn w =
    (Return tt,
     mkWorld (server w) (tl (schedule w)) (sessions w)
       (sent w ++ [SELECT_NAME R])%list rest
       (stdout w ++
        [Line (Py.nl ++ "--- Customer Check-Out ---");
         Prompt "Enter room number for check-out: ";
         Line ("Error: Room " ++ Py.str R ++ " is not occupied.")])%list).
Proof.
  intros (Hopen & Hprov & Hcalm) Hvac Hint Hin.
  open_world w; subst.
  apply where_vacant in Hvac.
  split.
  - unfold find_customer; run. rewrite Hint; run. rewrite Hopen; run.
    run_calm Hcalm. unfold MySQL.select_by_room; simpl. rewrite Hvac; run.
    unfold served; simpl. repeat rewrite <- app_assoc; reflexivity.
  - unfold check_out_customer; run. rewrite Hint; run. rewrite Hopen; run.
    run_calm Hcalm. unfold MySQL.select_name; simpl. rewrite Hvac; run.
    unfold served; simpl. repeat rewrite <- app_assoc; reflexivity.
Qed.

(** C4.  For an occupied room [R], a confirmation whose lower-case form
    is not [y] cancels the check-out: only the SELECT was sent and the
    server, with the record of [R], is unchanged. *)
Theorem declined_check_out_is_cancelled
    (conn : handle) (w : world) (text answer : string) (R : Z)
    (rest : list string) :
  serving conn w ->
  MySQL.occupied R (MySQL.registry (server w)) = true ->
  Py.int text = Some R ->
  String.eqb (Py.lower answer) "y" = false ->
  stdin w = text :: answer :: rest ->
  exists guest,
    fetchone (MySQL.where_room_number R (MySQL.registry (server w)))
      = Some guest
    /\ check_out_customer conn w =
      (Return tt,
       mkWorld (server w) (tl (schedule w)) (sessions w)
         (sent w ++ [SELECT_NAME R])%list rest
         (stdout w ++
          [Line (Py.nl ++ "--- Customer Check-Out ---");
           Prompt "Enter room number for check-out: ";
           Prompt ("Check out customer '" ++ MySQL.name guest
                   ++ "' from room " ++ Py.str R ++ "? (y/n): ");
           Line "Check-out cancelled."])%list).
Proof.
  intros (Hopen & Hprov & Hcalm) Hocc Hint Hno Hin.
  open_world w; subst.
  destruct (where_occupied _ _ Hocc) as (guest & l' & Hw & _ & _).
  exists guest; rewrite Hw; split; [reflexivity|].
  unfold check_out_customer; run. rewrite Hint; run. rewrite Hopen; run.
  run_calm Hcalm. unfold MySQL.select_name; simpl. rewrite Hw; run.
  rewrite Hno; run.
  unfold served; simpl. repeat rewrite <- app_assoc; reflexivity.
Qed.

Lemma occupied_after_delete (r : Z) (l : list MySQL.customer) :
  MySQL.occupied r (filter (fun c => negb (MySQL.room_number c =? r)) l)
    = false.
Proof.
  unfold MySQL.occupied; induction l as [|c l IH]; simpl; [reflexivity|].
  destruct (MySQL.room_number c =? r) eqn:E; simpl; [exact IH|].
  rewrite E; exact IH.
Qed.

(** X5.  Check-out completeness.  A confirmed check-out of an occupied room
    removes its record and nothing else: the room is vacant afterwards,
    so that [find_customer] no longer finds it and the listing no longer
    shows it. *)
Theorem confirmed_check_out_vacates
    (conn : handle) (w : world) (text answer : string) (R : Z)
    (rest : list string) :
  serving conn w ->
  MySQL.occupied R (MySQL.registry (server w)) = true ->
  Py.int text = Some R ->
  String.eqb (Py.lower answer) "y" = true ->
  stdin w = text :: answer :: rest ->
  let w' := snd (check_out_customer conn w) in
  exists guest,
    fetchone (MySQL.where_room_number R (MySQL.registry (server w)))
      = Some guest
    /\ fst (check_out_customer conn w) = Return tt
    /\ stdout w' =
         (stdout w ++
          [Line (Py.nl ++ "--- Customer Check-Out ---");
           Prompt "Enter room number for check-out: ";
           Prompt ("Check out customer '" ++ MySQL.name guest
                   ++ "' from room " ++ Py.str R ++ "? (y/n): ");
           Line ("Success! Customer from room " ++ Py.str R
                 ++ " has been checked out.")])%list
    /\ sent w' = (sent w ++ [SELECT_NAME R; DELETE R; COMMIT])%list
    /\ MySQL.registry (server w') =
         filter (fun c => negb (MySQL.room_number c =? R))
           (MySQL.registry (server w))
    /\ MySQL.occupied R (MySQL.registry (server w')) = false
    /\ serving conn w'.
Proof.
  intros (Hopen & Hprov & Hcalm) Hocc Hint Hyes Hin.
  open_world w; subst.
  destruct (where_occupied _ _ Hocc) as (guest & l' & Hw & _ & _).
  exists guest; rewrite Hw; split; [reflexivity|].
  unfold check_out_customer; run. rewrite Hint; run. rewrite Hopen; run.
  run_calm Hcalm. unfold MySQL.select_name; simpl. rewrite Hw; run.
  rewrite Hyes; run. run_calm Hcalm. unfold MySQL.delete; simpl.
  rewrite Hw; run. run_calm Hcalm; run.
  repeat rewrite <- app_assoc; simpl.
  repeat split; auto using quiet_tl.
  apply occupied_after_delete.
Qed.


(** ** A record that vanishes before the DELETE

    Other sessions never drop the table. *)

Lemma insert_provisioned (n c a : string) (r : Z) (s s' : MySQL.server) :
  MySQL.insert n c a r s = inr s' -> provisioned s' = true.
Proof.
  unfold MySQL.insert.
  destruct (MySQL.the_table s) as [e|t]; [discriminate|].
  destruct (MySQL.refused n c a r); [discriminate|].
  destruct (MySQL.occupied r (MySQL.rows t)); [discriminate|].
  intros H; injection H as <-; reflexivity.
Qed.

Lemma act_provisioned (a : MySQL.activity) (s : MySQL.server) :
  provisioned s = true -> provisioned (MySQL.act a s) = true.
Proof.
  intros H; destruct a as [n c ad r|r|t]; simpl.
  - match goal with |- context [if ?b then _ else _] => destruct b end;
      [|exact H].
    destruct (MySQL.insert n c ad r s) as [e|s'] eqn:E; [exact H|].
    exact (insert_provisioned _ _ _ _ _ _ E).
  - destruct s as [[[t|]|] clock]; simpl in *; try discriminate; reflexivity.
  - exact H.
Qed.

Lemma meanwhile_provisioned (e : MySQL.event) (s : MySQL.server) :
  provisioned s = true -> provisioned (MySQL.meanwhile e s) = true.
Proof.
  unfold MySQL.meanwhile; generalize (MySQL.others e); intros l.
  revert s; induction l as [|a l IH]; simpl; intros s H; [exact H|].
  apply IH, act_provisioned, H.
Qed.

Lemma filter_vacant (r : Z) (l : list MySQL.customer) :
  MySQL.occupied r l = false ->
  filter (fun c => negb (MySQL.room_number c =? r)) l = l.
Proof.
  unfold MySQL.occupied; induction l as [|c l IH]; simpl; [reflexivity|].
  destruct (MySQL.room_number c =? r); simpl; [discriminate|].
  intros H; rewrite (IH H); reflexivity.
Qed.

(** C5.  When the name lookup finds a guest in [R], the answer is
    affirmative, and another session removes the record before the DELETE
    reaches the server, the DELETE removes no row and the operation
    reports that it could not process the check-out, not a success. *)
Theorem vanished_record_is_not_a_success
    (conn : handle) (w : world) (text answer : string) (R : Z)
    (rest : list string) (e1 e2 : MySQL.event) (sch : list MySQL.event) :
  nth conn (sessions w) false = true ->
  provisioned (server w) = true ->
  schedule w = e1 :: e2 :: sch ->
  MySQL.fault e1 = None -> MySQL.fault e2 = None ->
  forallb MySQL.quiet sch = true ->
  let s1 := MySQL.meanwhile e1 (server w) in
  let s2 := MySQL.meanwhile e2 s1 in
  MySQL.occupied R (MySQL.registry s1) = true ->
  MySQL.occupied R (MySQL.registry s2) = false ->
  Py.int text = Some R ->
  String.eqb (Py.lower answer) "y" = true ->
  stdin w = text :: answer :: rest ->
  let w' := snd (check_out_customer conn w) in
  exists guest,
    fetchone (MySQL.where_room_number R (MySQL.registry s1)) = Some guest
    /\ fst (check_out_customer conn w) = Return tt
    /\ stdout w' =
         (stdout w ++
          [Line (Py.nl ++ "--- Customer Check-Out ---");
           Prompt "Enter room number for check-out: ";
           Prompt ("Check out customer '" ++ MySQL.name guest
                   ++ "' from room " ++ Py.str R ++ "? (y/n): ");
           Line "Could not process check-out."])%list
    /\ sent w' = (sent w ++ [SELECT_NAME R; DELETE R; COMMIT])%list
    /\ MySQL.registry (server w') = MySQL.registry s2.
Proof.
  intros Hopen Hprov Hsch Hf1 Hf2 Hcalm s1 s2 Hocc Hvac Hint Hyes Hin.
  pose proof (meanwhile_provisioned e1 _ Hprov) as Hp1.
  pose proof (meanwhile_provisioned e2 _ Hp1) as Hp2.
  subst s1 s2.
  remember (MySQL.meanwhile e1 (server w)) as s1 eqn:E1.
  remember (MySQL.meanwhile e2 s1) as s2 eqn:E2.
  destruct (where_occupied _ _ Hocc) as (guest & l' & Hw & _ & _).
  exists guest; rewrite Hw; split; [reflexivity|].
  destruct w as [srv sch0 ses snt inp out]; simpl in *; subst sch0 inp.
  unfold check_out_customer; run. rewrite Hint; run. rewrite Hopen; run.
  rewrite (execute_event _ _ _ e1 (e2 :: sch)) by (reflexivity || assumption).
  simpl; rewrite <- E1.
  destruct s1 as [[[t1|]|] clock1]; try discriminate.
  unfold MySQL.select_name; simpl. unfold MySQL.registry in Hw; simpl in Hw.
  rewrite Hw; run. rewrite Hyes; run.
  rewrite (execute_event _ _ _ e2 sch) by (reflexivity || assumption).
  simpl; rewrite <- E2.
  destruct s2 as [[[t2|]|] clock2]; try discriminate.
  unfold MySQL.delete; simpl. unfold MySQL.registry in Hvac; simpl in Hvac.
  rewrite (where_vacant _ _ Hvac); run.
  rewrite execute_calm by exact Hcalm; run.
  rewrite (filter_vacant _ _ Hvac).
  repeat rewrite <- app_assoc; simpl. auto.
Qed.

(** ** The listing *)

Lemma insert_by_room_perm (c : MySQL.customer) (l : list MySQL.customer) :
  Permutation (MySQL.insert_by_room c l) (c :: l).
Proof.
  induction l as [|d l IH]; simpl; [apply Permutation_refl|].
  destruct (MySQL.room_number c <=? MySQL.room_number d).
  - apply Permutation_refl.
  - eapply perm_trans; [apply perm_skip, IH | apply perm_swap].
Qed.

Lemma order_by_room_number_perm (l : list MySQL.customer) :
  Permutation (MySQL.order_by_room_number l) l.
Proof.
  induction l as [|c l IH]; simpl; [constructor|].
  eapply perm_trans; [apply insert_by_room_perm | apply perm_skip, IH].
Qed.

Lemma insert_by_room_hd (c d : MySQL.customer) (l : list MySQL.customer) :
  by_room d c -> HdRel by_room d l ->
  HdRel by_room d (MySQL.insert_by_room c l).
Proof.
  intros Hdc Hd; destruct l as [|x l]; simpl.
  - constructor; exact Hdc.
  - destruct (MySQL.room_number c <=? MySQL.room_number x); constructor.
    + exact Hdc.
    + inversion Hd; assumption.
Qed.

Lemma insert_by_room_sorted (c : MySQL.customer) (l : list MySQL.customer) :
  Sorted by_room l -> Sorted by_room (MySQL.insert_by_room c l).
Proof.
  induction l as [|d l IH]; simpl; intros Hs.
  - constructor; constructor.
  - destruct (MySQL.room_number c <=? MySQL.room_number d) eqn:E.
    + constructor; [exact Hs|]. constructor; apply Z.leb_le, E.
    + inversion Hs as [|? ? Hl Hd]; subst.
      constructor; [apply IH, Hl|].
      apply insert_by_room_hd; [|exact Hd].
      apply Z.leb_gt in E; unfold by_room; lia.
Qed.

Lemma order_by_room_number_sorted (l : list MySQL.customer) :
  Sorted by_room (MySQL.order_by_room_number l).
Proof.
  induction l as [|c l IH]; simpl; [constructor|].
  apply insert_by_room_sorted, IH.
Qed.

Lemma for_each_print {A} (f : A -> string) (l : list A) (w : world) :
  for_each l (fun a => print (f a)) w =
    (Return tt,
     mkWorld (server w) (schedule w) (sessions w) (sent w) (stdin w)
       (stdout w ++ map (fun a => Line (f a)) l)%list).
Proof.
  revert w; induction l as [|a l IH]; intros w; simpl.
  - unfold ret; rewrite app_nil_r; destruct w; reflexivity.
  - unfold bind, print; simpl. rewrite IH; simpl.
    rewrite <- app_assoc; reflexivity.
Qed.

Lemma print_run (s : string) (w : world) :
  print s w =
    (Return tt,
     mkWorld (server w) (schedule w) (sessions w) (sent w) (stdin w)
       (stdout w ++ [Line s])%list).
Proof. reflexivity. Qed.

Arguments for_each : simpl never.

(** C6.  [view_all_customers] fetches every record of the registry, in
    ascending order of room number, and displays one line per record; on
    an empty registry it returns normally with the no-customers line, not
    an error. *)
Theorem view_lists_every_record_by_room (conn : handle) (w : world) :
  serving conn w ->
  let w' := snd (view_all_customers conn w) in
  exists customers,
    Permutation customers (MySQL.registry (server w))
    /\ Sorted by_room customers
    /\ MySQL.select_all (server w) = inr (map listed customers)
    /\ fst (view_all_customers conn w) = Return tt
    /\ server w' = server w
    /\ stdout w' =
         (stdout w ++
          Line (Py.nl ++ "--- All Checked-In Customers ---") ::
          match customers with
          | [] => [Line "No customers are currently checked in."]
          | _ :: _ =>
              Line (Py.ljust 5 "ID" ++ " | " ++ Py.ljust 25 "Name" ++ " | "
                    ++ Py.ljust 15 "Contact" ++ " | "
                    ++ Py.ljust 10 "Room No." ++ " | "
                    ++ Py.ljust 20 "Check-In Date") ::
              Line (Py.repeat "-" 85) ::
              map (fun c => Line (customer_line (listed c))) customers
          end)%list.
Proof.
  intros (Hopen & Hprov & Hcalm).
  open_world w; subst.
  exists (MySQL.order_by_room_number (MySQL.rows t)).
  split; [apply order_by_room_number_perm|].
  split; [apply order_by_room_number_sorted|].
  split; [reflexivity|].
  unfold view_all_customers.
  unfold try_except, cursor, is_connected.
  lazy beta iota zeta delta [bind sessions]. rewrite Hopen.
  lazy beta iota zeta delta [bind ret query].
  rewrite execute_calm by exact Hcalm.
  unfold MySQL.select_all; simpl. fold listed.
  destruct (MySQL.order_by_room_number (MySQL.rows t)) as [|c l] eqn:E.
  - run. repeat rewrite <- app_assoc; simpl; auto.
  - cbv beta iota; cbn [map].
    repeat (rewrite print_run; cbv beta iota).
    rewrite for_each_print; run.
    repeat rewrite <- app_assoc; simpl.
    rewrite map_map. auto.
Qed.

(** ** Round trip *)

Lemma where_app (r : Z) (l l' : list MySQL.customer) :
  MySQL.where_room_number r (l ++ l') =
    (MySQL.where_room_number r l ++ MySQL.where_room_number r l')%list.
Proof. apply filter_app. Qed.

(** C2, as amended.  For non-empty [n], [c], [a] and a vacant room [R],
    when [check_in_customer] reports success, the [find_customer] that
    follows fetches one record for [R]: its room number is [R], its id
    is the counter of the table and its date the clock of the server at
    the check-in, and its name, contact and address are what the columns
    keep of the inputs, the first 255, 20 and 65535 characters; these are
    the values displayed.  What a column cuts off is trailing spaces
    only, and inputs within the length of their columns are kept as they
    are. *)
Theorem check_in_then_find_round_trip
    (conn : handle) (w : world) (n c a text again : string) (R : Z)
    (rest : list string) :
  serving conn w ->
  Py.truthy_str n = true -> Py.truthy_str c = true -> Py.truthy_str a = true ->
  Py.int text = Some R -> Py.int again = Some R ->
  MySQL.occupied R (MySQL.registry (server w)) = false ->
  stdin w = n :: c :: a :: text :: again :: rest ->
  let w1 := snd (check_in_customer conn w) in
  stdout w1 =
    (stdout w ++
     [Line (Py.nl ++ "--- New Customer Check-In ---");
      Prompt "Enter customer's full name: ";
      Prompt "Enter contact number: ";
      Prompt "Enter address: ";
      Prompt "Enter allocated room number: ";
      Line (Py.nl ++ "Success! Customer '" ++ n ++ "' checked into room "
            ++ Py.str R ++ ".")])%list ->
  let w2 := snd (find_customer conn w1) in
  let name := MySQL.stored 255 n in
  let contact := MySQL.stored 20 c in
  let address := MySQL.stored 65535 a in
  MySQL.select_by_room R (server w1) =
    inr [(next_id (server w), name, contact, address, R,
          MySQL.now (server w))]
  /\ fst (find_customer conn w1) = Return tt
  /\ stdout w2 =
       (stdout w1 ++
        [Line (Py.nl ++ "--- Find a Customer ---");
         Prompt "Enter the room number to find: ";
         Line (Py.nl ++ "Customer Found:");
         Line (Py.repeat "-" 20);
         Line ("  ID: " ++ Py.str (next_id (server w)));
         Line ("  Name: " ++ name);
         Line ("  Contact: " ++ contact);
         Line ("  Address: " ++ address);
         Line ("  Room Number: " ++ Py.str R);
         Line ("  Check-In Date: " ++ Py.strftime (MySQL.now (server w)));
         Line (Py.repeat "-" 20)])%list
  /\ server w2 = server w1
  /\ (n = name ++ MySQL.excess 255 n
      /\ MySQL.blank (MySQL.excess 255 n) = true)
  /\ (c = contact ++ MySQL.excess 20 c
      /\ MySQL.blank (MySQL.excess 20 c) = true)
  /\ (a = address ++ MySQL.excess 65535 a
      /\ MySQL.blank (MySQL.excess 65535 a) = true)
  /\ (MySQL.fits n c a R = None -> name = n /\ contact = c /\ address = a).
Proof.
  intros (Hopen & Hprov & Hcalm) Hn Hc Ha Hint Hagain Hvac Hin.
  open_world w; subst.
  unfold check_in_customer; run.
  rewrite Hint; run. rewrite Hn, Hc, Ha; run.
  destruct (Py.truthy_int R) eqn:HR; run.
  2:{ repeat rewrite <- app_assoc; simpl.
      intros H; apply app_inv_head in H; discriminate H. }
  rewrite Hopen; run. run_calm Hcalm.
  unfold MySQL.insert; simpl.
  destruct (MySQL.refused n c a R) as [e|] eqn:Href; run.
  { rewrite (refused_errno _ _ _ _ _ Href); run.
    repeat rewrite <- app_assoc; simpl.
    intros H; apply app_inv_head in H; discriminate H. }
  rewrite Hvac; run.
  run_calm Hcalm; run.
  intros _.
  unfold find_customer; run. rewrite Hagain; run. rewrite Hopen; run.
  run_calm Hcalm; run.
  unfold MySQL.select_by_room; simpl.
  rewrite where_app, (where_vacant _ _ Hvac); simpl.
  unfold MySQL.where_room_number; simpl. rewrite Z.eqb_refl; run.
  destruct (accepted_blank _ _ _ _ Href) as (Bn & Bc & Ba & _).
  split; [reflexivity|]. split; [reflexivity|].
  split; [repeat rewrite <- app_assoc; reflexivity|].
  split; [reflexivity|].
  split; [split; [apply stored_excess|exact Bn]|].
  split; [split; [apply stored_excess|exact Bc]|].
  split; [split; [apply stored_excess|exact Ba]|].
  intros Hfit; apply fits_kept in Hfit. tauto.
Qed.

(** ** The main loop

    What every computation of the program respects. *)

Section Respects.

Variable R : world -> world -> Prop.
Hypothesis R_refl : forall w, R w w.
Hypothesis R_trans : forall u v w, R u v -> R v w -> R u w.

Lemma respects_ret {A} (a : A) : respects R (ret a).
Proof. intros w; apply R_refl. Qed.

Lemma respects_raise {A} (e : exn) : respects R (@raise A e).
Proof. intros w; apply R_refl. Qed.

Lemma respects_bind {A B} (c : M A) (k : A -> M B) :
  respects R c -> (forall a, respects R (k a)) -> respects R (bind c k).
Proof.
  intros Hc Hk w; unfold bind.
  specialize (Hc w); destruct (c w) as [[a|e] w1]; simpl in *.
  - eapply R_trans; [exact Hc | apply Hk].
  - exact Hc.
Qed.

Lemma respects_try_except {A} (body : M A) (handler : exn -> option (M A)) :
  respects R body ->
  (forall e h, handler e = Some h -> respects R h) ->
  respects R (try_except body handler).
Proof.
  intros Hb Hh w; unfold try_except.
  specialize (Hb w); destruct (body w) as [[a|e] w1]; simpl in *.
  - exact Hb.
  - destruct (handler e) as [h|] eqn:E; simpl.
    + eapply R_trans; [exact Hb | apply (Hh e h E)].
    + exact Hb.
Qed.

Lemma respects_for_each {A} (l : list A) (body : A -> M unit) :
  (forall a, respects R (body a)) -> respects R (for_each l body).
Proof.
  intros Hb; induction l as [|a l IH]; simpl.
  - apply respects_ret.
  - apply respects_bind; [apply Hb | intros _; exact IH].
Qed.

Lemma respects_int (s : string) : respects R (int s).
Proof.
  unfold int; destruct (Py.int s); [apply respects_ret | apply respects_raise].
Qed.

Lemma respects_is_connected (conn : handle) : respects R (is_connected conn).
Proof. intros w; apply R_refl. Qed.

Lemma respects_cursor (conn : handle) : respects R (cursor conn).
Proof.
  apply respects_bind; [apply respects_is_connected|].
  intros [|]; [apply respects_ret | apply respects_raise].
Qed.

End Respects.

(** *** The console only shrinks *)

Lemma reads_refl (w : world) : reads w w.
Proof. unfold reads; lia. Qed.

Lemma reads_trans (u v w : world) : reads u v -> reads v w -> reads u w.
Proof. unfold reads; lia. Qed.

Lemma reads_print (s : string) : respects reads (print s).
Proof. intros w; unfold reads; simpl; lia. Qed.

Lemma reads_input (s : string) : respects reads (input s).
Proof.
  intros w; unfold reads, input; destruct (stdin w); simpl; lia.
Qed.

Lemma reads_execute {A} (q : statement)
    (run : MySQL.server -> MySQL.error + (MySQL.server * A)) :
  respects reads (execute q run).
Proof.
  intros w; unfold reads, execute.
  destruct (MySQL.fault _); [simpl; lia|].
  destruct (run _) as [e|[s a]]; simpl; lia.
Qed.

Lemma reads_close (conn : handle) : respects reads (close conn).
Proof. intros w; unfold reads; simpl; lia. Qed.

Ltac respects_with refl trans tac :=
  repeat
    (lazymatch goal with
     | |- respects _ (bind _ _) => apply (respects_bind _ trans); [|intros ?]
     | |- respects _ (try_except _ _) =>
         apply (respects_try_except _ trans);
         [|let H := fresh in
           intros [ | |?] ? H; simpl in H; try discriminate H;
           injection H as <-]
     | |- respects _ (for_each _ _) =>
         apply (respects_for_each _ refl trans); intros ?
     | |- respects _ (ret _) => apply (respects_ret _ refl)
     | |- respects _ (raise _) => apply (respects_raise _ refl)
     | |- respects _ (int _) => apply (respects_int _ refl)
     | |- respects _ (cursor _) => apply (respects_cursor _ refl trans)
     | |- respects _ (is_connected _) => apply (respects_is_connected _ refl)
     | |- respects _ (match ?x with _ => _ end) => destruct x eqn:?
     | |- respects _ _ => tac
     end).

Ltac reads_tac :=
  respects_with reads_refl reads_trans
    ltac:(idtac; lazymatch goal with
          | |- respects _ (print _) => apply reads_print
          | |- respects _ (input _) => apply reads_input
          | |- respects _ (execute _ _) => apply reads_execute
          | |- respects _ (commit _) => apply reads_execute
          | |- respects _ (close _) => apply reads_close
          end).

Lemma reads_check_in_customer (conn : handle) :
  respects reads (check_in_customer conn).
Proof. unfold check_in_customer; reads_tac. Qed.

Lemma reads_view_all_customers (conn : handle) :
  respects reads (view_all_customers conn).
Proof. unfold view_all_customers; reads_tac. Qed.

Lemma reads_find_customer (conn : handle) :
  respects reads (find_customer conn).
Proof. unfold find_customer; reads_tac. Qed.

Lemma reads_check_out_customer (conn : handle) :
  respects reads (check_out_customer conn).
Proof. unfold check_out_customer; reads_tac. Qed.

Lemma iteration_reads_a_line (conn : handle) (w w' : world) (b : bool) :
  iteration conn w = (Return b, w') ->
  (List.length (stdin w') < List.length (stdin w))%nat.
Proof.
  unfold iteration, bind at 1.
  destruct (menu w) as [[choice|e] w1] eqn:Hmenu; [|discriminate].
  assert (Hlt : (List.length (stdin w1) < List.length (stdin w))%nat).
  { revert Hmenu; destruct w as [srv sch ses snt [|l rest] out];
      unfold menu; run; [discriminate|].
    intros H; injection H as _ <-; simpl; lia. }
  intros H.
  assert (Hle : reads w1 w').
  { replace w' with (snd (
      (if String.eqb choice "1" then check_in_customer conn;; ret false
       else if String.eqb choice "2" then view_all_customers conn;; ret false
       else if String.eqb choice "3" then find_customer conn;; ret false
       else if String.eqb choice "4" then check_out_customer conn;; ret false
       else if String.eqb choice "5"
       then print "Exiting the system. Goodbye!";; ret true
       else print "Invalid choice. Please select a valid option.";; ret false)
      w1)) by (rewrite H; reflexivity).
    generalize w1.
    change (respects reads
      (if String.eqb choice "1" then check_in_customer conn;; ret false
       else if String.eqb choice "2" then view_all_customers conn;; ret false
       else if String.eqb choice "3" then find_customer conn;; ret false
       else if String.eqb choice "4" then check_out_customer conn;; ret false
       else if String.eqb choice "5"
       then print "Exiting the system. Goodbye!";; ret true
       else print "Invalid choice. Please select a valid option.";; ret false)).
    respects_with reads_refl reads_trans
      ltac:(idtac; lazymatch goal with
            | |- respects _ (print _) => apply reads_print
            | |- respects _ (check_in_customer _) =>
                apply reads_check_in_customer
            | |- respects _ (view_all_customers _) =>
                apply reads_view_all_customers
            | |- respects _ (find_customer _) => apply reads_find_customer
            | |- respects _ (check_out_customer _) =>
                apply reads_check_out_customer
            end). }
  unfold reads in Hle; lia.
Qed.

Lemma loop_returns (fuel : nat) (conn : handle) (w : world) :
  (List.length (stdin w) < fuel)%nat -> loop fuel conn w <> None.
Proof.
  revert w; induction fuel as [|fuel IH]; intros w Hlt; [lia|].
  cbn [loop]. destruct (iteration conn w) as [[[|]|e] w1] eqn:E.
  - intros H; discriminate H.
  - apply IH. apply iteration_reads_a_line in E. lia.
  - intros H; discriminate H.
Qed.

(** X1.  [main] always comes to an end on the lines the console holds:
    every pass of the loop reads at least one line, so the bound on the
    passes is never reached. *)
Theorem main_returns (w : world) : main w <> None.
Proof.
  unfold main.
  destruct (setup_database w) as [[[conn|]|e] w1].
  - pose proof (loop_returns (S (List.length (stdin w1))) conn w1) as H.
    destruct (loop _ conn w1) as [[[[]|e] w2]|].
    + intros H'; discriminate H'.
    + intros H'; discriminate H'.
    + exfalso; apply H; [lia | reflexivity].
  - intros H; discriminate H.
  - intros H; discriminate H.
Qed.

Lemma nth_set_nth (n : nat) (l : list bool) :
  nth n (set_nth n false l) false = false.
Proof.
  revert n; induction l as [|b l IH]; intros [|n]; simpl; auto.
Qed.

(** X2.  When [main] returns, the session that [setup_database] opened
    is closed. *)
Theorem normal_exit_closes_the_session
    (w w1 w' : world) (conn : handle) :
  setup_database w = (Return (Some conn), w1) ->
  main w = Some (Return tt, w') ->
  nth conn (sessions w') false = false.
Proof.
  intros Hsetup; unfold main; rewrite Hsetup.
  destruct (loop _ conn w1) as [[[[]|e] w2]|];
    try (intros H; discriminate H).
  unfold bind, is_connected.
  destruct (nth conn (sessions w2) false) eqn:E; unfold ret, close, print.
  - intros H; injection H as <-; simpl. apply nth_set_nth.
  - intros H; injection H as <-; exact E.
Qed.

(** ** Provisioning *)

Lemma nth_snoc (l : list bool) : nth (List.length l) (l ++ [true]) false = true.
Proof.
  rewrite app_nth2, Nat.sub_diag by lia; reflexivity.
Qed.

Arguments set_nth : simpl never.
Arguments nth : simpl never.

Lemma setup_database_calm (w : world) :
  calm w ->
  exists conn w1,
    setup_database w = (Return (Some conn), w1)
    /\ serving conn w1
    /\ MySQL.registry (server w1) = MySQL.registry (server w)
    /\ (provisioned (server w) = true -> server w1 = server w)
    /\ sent w1 =
         (sent w ++ [CONNECT; CREATE_DATABASE; CONNECT_DATABASE;
                     CREATE_TABLE_IF_NOT_EXISTS])%list
    /\ stdin w1 = stdin w
    /\ stdout w1 =
         (stdout w ++ [Line "Ensuring 'customers' table exists...";
                       Line "Database and table are ready."])%list.
Proof.
  intros Hcalm.
  destruct w as [[db clock] sch ses snt inp out]; unfold calm in Hcalm;
    simpl in Hcalm.
  unfold setup_database, connect, connect_database, open_session; run.
  run_calm Hcalm; run. rewrite nth_snoc; run.
  run_calm Hcalm; run.
  destruct db as [[t|]|]; unfold MySQL.create_database; run;
    run_calm Hcalm; unfold MySQL.use_database; run;
    rewrite nth_snoc; run;
    run_calm Hcalm; unfold MySQL.create_table_if_not_exists; run;
    (eexists; eexists; split; [reflexivity|]);
    unfold serving, calm; simpl;
    rewrite nth_snoc;
    repeat rewrite <- app_assoc; simpl;
    repeat split; auto using quiet_tl; try discriminate.
Qed.

(** C8.  In a calm world [setup_database] succeeds, and succeeds again
    when run a second time: the second CREATE DATABASE meets the
    database-exists error, which is swallowed, and the server with its
    table and rows is left exactly as the first run left it.  Any other
    error on CREATE DATABASE makes [setup_database] report the error and
    return no session. *)
Theorem provisioning_is_idempotent (w : world) (err : MySQL.error) :
  calm w ->
  MySQL.errno err <> MySQL.ER_DB_CREATE_EXISTS ->
  (exists c1 w1 c2 w2,
     setup_database w = (Return (Some c1), w1)
     /\ setup_database w1 = (Return (Some c2), w2)
     /\ serving c1 w1 /\ serving c2 w2
     /\ MySQL.registry (server w1) = MySQL.registry (server w)
     /\ server w2 = server w1
     /\ exists e,
          MySQL.create_database (server w1) = inl e
          /\ MySQL.errno e = MySQL.ER_DB_CREATE_EXISTS)
  /\ (let refused :=
        with_schedule [MySQL.mkEvent [] None; MySQL.mkEvent [] (Some err)] w in
      fst (setup_database refused) = Return None
      /\ server (snd (setup_database refused)) = server w
      /\ stdout (snd (setup_database refused)) =
           (stdout w ++
            [Line ("Database setup error: " ++ MySQL.errtext err)])%list).
Proof.
  intros Hcalm Herr; split.
  - destruct (setup_database_calm w Hcalm)
      as (c1 & w1 & H1 & Hs1 & Hreg & _ & _).
    destruct Hs1 as (Ho1 & Hp1 & Hc1).
    destruct (setup_database_calm w1 Hc1)
      as (c2 & w2 & H2 & Hs2 & _ & Hsame & _).
    exists c1, w1, c2, w2.
    repeat split; try assumption; try (apply Hs2); [apply Hsame, Hp1|].
    destruct (server w1) as [[[t|]|] clock]; try discriminate Hp1.
    eexists; split; reflexivity.
  - destruct w as [srv sch ses snt inp out]; unfold with_schedule; simpl.
    unfold setup_database, connect, connect_database, open_session; run.
    rewrite nth_snoc; run.
    unfold execute; run.
    apply Z.eqb_neq in Herr; rewrite Herr; run.
    repeat split; reflexivity.
Qed.

(** C9.  The session is not released on every path: when the console
    input ends after one listing, [input] raises [EOFError] at the menu,
    nothing catches it, and [main] ends with session 1 still open. *)
Theorem end_of_input_leaves_the_session_open :
  exists w',
    main (fresh ["2"]) = Some (Raise EOFError, w')
    /\ sessions w' = [false; true]
    /\ nth 1 (sessions w') false = true.
Proof. eexists; split; [vm_compute; reflexivity | split; reflexivity]. Qed.

(** ** Release of the session *)

Lemma undisturbed_refl (w : world) : undisturbed w w.
Proof. reflexivity. Qed.

Lemma undisturbed_trans (u v w : world) :
  undisturbed u v -> undisturbed v w -> undisturbed u w.
Proof. unfold undisturbed; congruence. Qed.

Lemma undisturbed_print (s : string) : respects undisturbed (print s).
Proof. intros w; reflexivity. Qed.

Lemma undisturbed_input (s : string) : respects undisturbed (input s).
Proof. intros w; unfold input; destruct (stdin w); reflexivity. Qed.

Lemma undisturbed_execute {A} (q : statement)
    (run : MySQL.server -> MySQL.error + (MySQL.server * A)) :
  respects undisturbed (execute q run).
Proof.
  intros w; unfold execute.
  destruct (MySQL.fault _); [reflexivity|].
  destruct (run _) as [e|[s a]]; reflexivity.
Qed.

Ltac undisturbed_tac :=
  respects_with undisturbed_refl undisturbed_trans
    ltac:(idtac; lazymatch goal with
          | |- respects _ (print _) => apply undisturbed_print
          | |- respects _ (input _) => apply undisturbed_input
          | |- respects _ (execute _ _) => apply undisturbed_execute
          | |- respects _ (commit _) => apply undisturbed_execute
          | |- respects _ (menu) => unfold menu
          | |- respects _ (check_in_customer _) => unfold check_in_customer
          | |- respects _ (view_all_customers _) => unfold view_all_customers
          | |- respects _ (find_customer _) => unfold find_customer
          | |- respects _ (check_out_customer _) => unfold check_out_customer
          end).

Lemma undisturbed_iteration (conn : handle) :
  respects undisturbed (iteration conn).
Proof. unfold iteration; undisturbed_tac. Qed.

Lemma undisturbed_loop (fuel : nat) (conn : handle) (w w' : world)
    (r : result unit) :
  loop fuel conn w = Some (r, w') -> undisturbed w w'.
Proof.
  revert w; induction fuel as [|fuel IH]; intros w; cbn [loop];
    [intros H; discriminate H|].
  pose proof (undisturbed_iteration conn w) as Hit.
  destruct (iteration conn w) as [[[|]|e] w1]; simpl in Hit.
  - intros H; injection H as _ <-; exact Hit.
  - intros H; eapply undisturbed_trans; [exact Hit | apply IH, H].
  - intros H; injection H as _ <-; exact Hit.
Qed.

Lemma setup_database_opens (w w1 : world) (conn : handle) :
  setup_database w = (Return (Some conn), w1) ->
  nth conn (sessions w1) false = true.
Proof.
  destruct w as [srv sch ses snt inp out].
  unfold setup_database, connect, connect_database, open_session, execute.
  run.
  repeat
    (match goal with
     | |- context [MySQL.fault ?e] => destruct (MySQL.fault e) eqn:?
     | |- context [MySQL.create_database ?s] =>
         destruct (MySQL.create_database s) eqn:?
     | |- context [MySQL.use_database ?s] =>
         destruct (MySQL.use_database s) as [?|[]] eqn:?
     | |- context [MySQL.create_table_if_not_exists ?s] =>
         destruct (MySQL.create_table_if_not_exists s) eqn:?
     | |- context [MySQL.errno ?e =? ?c] => destruct (MySQL.errno e =? c)
     | |- context [nth (List.length ?l) (?l ++ [true]) false] =>
         rewrite nth_snoc
     end; run);
    intros H; try discriminate H;
    inversion H; subst; simpl; apply nth_snoc.
Qed.

(** X3.  Whenever [main] comes to an end by an exception after
    [setup_database] has returned a session, that session is still open:
    nothing on that path closes it. *)
Theorem exception_leaves_the_session_open
    (w w1 w' : world) (conn : handle) (e : exn) :
  setup_database w = (Return (Some conn), w1) ->
  main w = Some (Raise e, w') ->
  nth conn (sessions w') false = true.
Proof.
  intros Hsetup; unfold main; rewrite Hsetup.
  pose proof (setup_database_opens _ _ _ Hsetup) as Hopen.
  destruct (loop _ conn w1) as [[[[]|e'] w2]|] eqn:El.
  - unfold bind, is_connected.
    destruct (nth conn (sessions w2) false); intros H; discriminate H.
  - intros H; injection H as _ <-.
    apply undisturbed_loop in El. unfold undisturbed in El.
    rewrite El; exact Hopen.
  - intros H; discriminate H.
Qed.

(** ** The registry holds what check-ins stored *)

Lemma keeps_refl (w : world) : keeps w w.
Proof. intros H; exact H. Qed.

Lemma keeps_trans (u v w : world) : keeps u v -> keeps v w -> keeps u w.
Proof. unfold keeps; auto. Qed.

Lemma keeps_print (s : string) : respects keeps (print s).
Proof. intros w H; exact H. Qed.

Lemma keeps_input (s : string) : respects keeps (input s).
Proof. intros w H; unfold input; destruct (stdin w); exact H. Qed.

Lemma keeps_close (conn : handle) : respects keeps (close conn).
Proof. intros w H; exact H. Qed.

Lemma insert_checked_in (n c a : string) (r : Z) (s s' : MySQL.server) :
  Py.all [Py.truthy_str n; Py.truthy_str c; Py.truthy_str a;
          Py.truthy_int r] = true ->
  checked_in (MySQL.registry s) ->
  MySQL.insert n c a r s = inr s' ->
  checked_in (MySQL.registry s').
Proof.
  intros Hall Hreg; unfold MySQL.insert, MySQL.the_table, MySQL.registry in *.
  destruct (MySQL.hotel_db s) as [[t|]|]; try discriminate.
  destruct (MySQL.refused n c a r); [discriminate|].
  destruct (MySQL.occupied r (MySQL.rows t)); [discriminate|].
  intros H; injection H as <-; simpl.
  apply Forall_app; split; [exact Hreg|].
  constructor; [|constructor].
  unfold presentable; cbn [MySQL.name MySQL.contact MySQL.address
                           MySQL.room_number].
  rewrite !truthy_stored by lia. exact Hall.
Qed.

Lemma delete_checked_in (r : Z) (s s' : MySQL.server) (k : Z) :
  checked_in (MySQL.registry s) ->
  MySQL.delete r s = inr (s', k) ->
  checked_in (MySQL.registry s').
Proof.
  intros Hreg; unfold MySQL.delete, MySQL.the_table, MySQL.registry in *.
  destruct (MySQL.hotel_db s) as [[t|]|]; try discriminate.
  intros H; injection H as <- _; simpl.
  unfold checked_in in *; rewrite Forall_forall in *.
  intros c Hc; apply filter_In in Hc; apply Hreg, Hc.
Qed.

Lemma act_checked_in (a : MySQL.activity) (s : MySQL.server) :
  checked_in (MySQL.registry s) -> checked_in (MySQL.registry (MySQL.act a s)).
Proof.
  intros H; destruct a as [n c ad r|r|t]; cbn [MySQL.act].
  - match goal with |- context [if ?b then _ else _] => destruct b eqn:E end;
      [|exact H].
    destruct (MySQL.insert n c ad r s) as [e|s'] eqn:Ei; [exact H|].
    exact (insert_checked_in _ _ _ _ _ _ E H Ei).
  - destruct (MySQL.delete r s) as [e|[s' k]] eqn:Ed; [exact H|].
    exact (delete_checked_in _ _ _ _ H Ed).
  - exact H.
Qed.

Lemma meanwhile_checked_in (e : MySQL.event) (s : MySQL.server) :
  checked_in (MySQL.registry s) ->
  checked_in (MySQL.registry (MySQL.meanwhile e s)).
Proof.
  unfold MySQL.meanwhile; generalize (MySQL.others e); intros l.
  revert s; induction l as [|a l IH]; intros s H; [exact H|].
  apply IH, act_checked_in, H.
Qed.

Lemma keeps_execute {A} (q : statement)
    (run : MySQL.server -> MySQL.error + (MySQL.server * A)) :
  (forall s s' a, checked_in (MySQL.registry s) -> run s = inr (s', a) ->
                  checked_in (MySQL.registry s')) ->
  respects keeps (execute q run).
Proof.
  intros Hrun w H; unfold execute.
  pose proof (meanwhile_checked_in
                (hd (MySQL.mkEvent [] None) (schedule w)) _ H) as Hm.
  destruct (MySQL.fault _); [exact Hm|].
  destruct (run _) as [e|[s' a]] eqn:E; [exact Hm|].
  exact (Hrun _ _ _ Hm E).
Qed.

Lemma keeps_query {A} (q : statement) (f : MySQL.server -> MySQL.error + A) :
  respects keeps (execute q (query f)).
Proof.
  apply keeps_execute; intros s s' a H; unfold query.
  destruct (f s); [discriminate|]. intros E; injection E as <- _; exact H.
Qed.

Lemma keeps_commit (conn : handle) : respects keeps (commit conn).
Proof.
  apply keeps_execute; intros s s' a H E; injection E as <- _; exact H.
Qed.

Lemma keeps_delete (r : Z) :
  respects keeps (execute (DELETE r) (MySQL.delete r)).
Proof.
  apply keeps_execute; intros s s' a H E. exact (delete_checked_in _ _ _ _ H E).
Qed.

Lemma keeps_create_database :
  respects keeps (execute CREATE_DATABASE (update MySQL.create_database)).
Proof.
  apply keeps_execute; intros s s' a H; unfold update, MySQL.create_database.
  destruct (MySQL.hotel_db s); [discriminate|].
  intros E; injection E as <- _; constructor.
Qed.

Lemma keeps_create_table :
  respects keeps
    (execute CREATE_TABLE_IF_NOT_EXISTS
       (update MySQL.create_table_if_not_exists)).
Proof.
  apply keeps_execute; intros s s' a H.
  unfold update, MySQL.create_table_if_not_exists.
  destruct (MySQL.hotel_db s) as [[t|]|] eqn:E; try discriminate;
    intros E'; injection E' as <- _; [exact H | constructor].
Qed.

Ltac keeps_tac :=
  respects_with keeps_refl keeps_trans
    ltac:(idtac; lazymatch goal with
          | |- respects _ (print _) => apply keeps_print
          | |- respects _ (input _) => apply keeps_input
          | |- respects _ (close _) => apply keeps_close
          | |- respects _ (commit _) => apply keeps_commit
          | |- respects _ (execute _ (query _)) => apply keeps_query
          | |- respects _ (execute _ (MySQL.delete _)) => apply keeps_delete
          | |- respects _ (execute _ (update MySQL.create_database)) =>
              apply keeps_create_database
          | |- respects _
                 (execute _ (update MySQL.create_table_if_not_exists)) =>
              apply keeps_create_table
          | |- respects _ (connect) =>
              unfold connect, open_session
          | |- respects _ (connect_database) =>
              unfold connect_database, open_session
          | |- respects _ (fun _ => (Return _, _)) => intros ? ?; assumption
          | |- respects _ (execute _ _) =>
              let E := fresh in
              apply keeps_execute; intros ? ? ? ? E; cbv beta in E;
              injection E as <- _; assumption
          end).

Lemma keeps_setup_database : respects keeps setup_database.
Proof. unfold setup_database; keeps_tac. Qed.

Lemma keeps_check_in_customer (conn : handle) :
  respects keeps (check_in_customer conn).
Proof.
  unfold check_in_customer; keeps_tac.
  apply keeps_execute; intros s s' u H; unfold update.
  destruct (MySQL.insert _ _ _ _ s) as [e|s1] eqn:Ei; [discriminate|].
  intros E'; injection E' as <- _.
  refine (insert_checked_in _ _ _ _ _ _ _ H Ei).
  match goal with
  | E : negb ?b = false |- _ => destruct b; [reflexivity | discriminate E]
  end.
Qed.

Lemma keeps_view_all_customers (conn : handle) :
  respects keeps (view_all_customers conn).
Proof. unfold view_all_customers; keeps_tac. Qed.

Lemma keeps_find_customer (conn : handle) :
  respects keeps (find_customer conn).
Proof. unfold find_customer; keeps_tac. Qed.

Lemma keeps_check_out_customer (conn : handle) :
  respects keeps (check_out_customer conn).
Proof. unfold check_out_customer; keeps_tac. Qed.

Lemma keeps_iteration (conn : handle) : respects keeps (iteration conn).
Proof.
  unfold iteration, menu.
  respects_with keeps_refl keeps_trans
    ltac:(idtac; lazymatch goal with
          | |- respects _ (print _) => apply keeps_print
          | |- respects _ (input _) => apply keeps_input
          | |- respects _ (check_in_customer _) =>
              apply keeps_check_in_customer
          | |- respects _ (view_all_customers _) =>
              apply keeps_view_all_customers
          | |- respects _ (find_customer _) => apply keeps_find_customer
          | |- respects _ (check_out_customer _) =>
              apply keeps_check_out_customer
          end).
Qed.

Lemma keeps_loop (fuel : nat) (conn : handle) (w w' : world)
    (r : result unit) :
  loop fuel conn w = Some (r, w') -> keeps w w'.
Proof.
  revert w; induction fuel as [|fuel IH]; intros w; cbn [loop];
    [intros H; discriminate H|].
  pose proof (keeps_iteration conn w) as Hit.
  destruct (iteration conn w) as [[[|]|e] w1]; simpl in Hit.
  - intros H; injection H as _ <-; exact Hit.
  - intros H; eapply keeps_trans; [exact Hit | apply IH, H].
  - intros H; injection H as _ <-; exact Hit.
Qed.

(** X4.  Whatever the schedule, a run of [main] leaves in the registry
    only rows that passed the presence check: no record has an empty
    name, contact or address, or room 0. *)
Theorem registry_holds_check_ins (w w' : world) (r : result unit) :
  checked_in (MySQL.registry (server w)) ->
  main w = Some (r, w') ->
  checked_in (MySQL.registry (server w')).
Proof.
  intros Hreg; unfold main.
  pose proof (keeps_setup_database w Hreg) as H1.
  destruct (setup_database w) as [[[conn|]|e] w1]; simpl in H1.
  - destruct (loop _ conn w1) as [[[[]|e] w2]|] eqn:El.
    + intros H. apply keeps_loop in El. specialize (El H1).
      revert H; unfold bind, is_connected.
      destruct (nth conn (sessions w2) false);
        intros H; injection H as _ <-; exact El.
    + intros H; injection H as _ <-. apply keeps_loop in El. exact (El H1).
    + intros H; discriminate H.
  - intros H; injection H as _ <-; exact H1.
  - intros H; injection H as _ <-; exact H1.
Qed.

(** ** Check-in: the other outcomes *)

Lemma check_in_customer_stores
    (conn : handle) (w : world) (n c a text : string) (R : Z)
    (rest : list string) :
  serving conn w ->
  MySQL.occupied R (MySQL.registry (server w)) = false ->
  Py.all [Py.truthy_str n; Py.truthy_str c; Py.truthy_str a;
          Py.truthy_int R] = true ->
  MySQL.fits n c a R = None ->
  Py.int text = Some R ->
  stdin w = n :: c :: a :: text :: rest ->
  check_in_customer conn w =
    (Return tt,
     mkWorld
       (MySQL.mkServer
          (Some (Some (MySQL.mkTable
             (MySQL.registry (server w)
              ++ [MySQL.mkCustomer (next_id (server w)) n c a R
                    (MySQL.now (server w))])%list
             (next_id (server w) + 1))))
          (MySQL.now (server w)))
       (tl (tl (schedule w))) (sessions w)
       (sent w ++ [INSERT n c a R; COMMIT])%list rest
       (stdout w ++
        [Line (Py.nl ++ "--- New Customer Check-In ---");
         Prompt "Enter customer's full name: ";
         Prompt "Enter contact number: ";
         Prompt "Enter address: ";
         Prompt "Enter allocated room number: ";
         Line (Py.nl ++ "Success! Customer '" ++ n ++ "' checked into room "
               ++ Py.str R ++ ".")])%list).
Proof.
  intros (Hopen & Hprov & Hcalm) Hvac Hall Hfit Hint Hin.
  open_world w; subst.
  unfold check_in_customer; run.
  rewrite Hint; run. unfold Py.all in Hall; simpl in Hall. rewrite Hall; run.
  rewrite Hopen; run. run_calm Hcalm. unfold MySQL.insert; simpl.
  destruct (fits_kept _ _ _ _ Hfit) as (Href & Kn & Kc & Ka).
  rewrite Href, Kn, Kc, Ka, Hvac; run. run_calm Hcalm; run.
  unfold MySQL.with_table; simpl.
  repeat rewrite <- app_assoc; reflexivity.
Qed.

(** X6.  A check-in that passes the presence check, with values that fit
    their columns, to a vacant room stores one new row at the end of the
    registry: the inputs, the id taken from the counter of the table and
    the date from the clock of the server.  INSERT and COMMIT are sent
    and the success line is printed. *)
Theorem check_in_stores_the_guest
    (conn : handle) (w : world) (n c a text : string) (R : Z)
    (rest : list string) :
  serving conn w ->
  MySQL.occupied R (MySQL.registry (server w)) = false ->
  Py.all [Py.truthy_str n; Py.truthy_str c; Py.truthy_str a;
          Py.truthy_int R] = true ->
  MySQL.fits n c a R = None ->
  Py.int text = Some R ->
  stdin w = n :: c :: a :: text :: rest ->
  let w' := snd (check_in_customer conn w) in
  fst (check_in_customer conn w) = Return tt
  /\ MySQL.registry (server w') =
       (MySQL.registry (server w)
        ++ [MySQL.mkCustomer (next_id (server w)) n c a R
              (MySQL.now (server w))])%list
  /\ next_id (server w') = next_id (server w) + 1
  /\ sent w' = (sent w ++ [INSERT n c a R; COMMIT])%list
  /\ stdin w' = rest
  /\ stdout w' =
       (stdout w ++
        [Line (Py.nl ++ "--- New Customer Check-In ---");
         Prompt "Enter customer's full name: ";
         Prompt "Enter contact number: ";
         Prompt "Enter address: ";
         Prompt "Enter allocated room number: ";
         Line (Py.nl ++ "Success! Customer '" ++ n ++ "' checked into room "
               ++ Py.str R ++ ".")])%list.
Proof.
  intros Hs Hvac Hall Hfit Hint Hin; cbv zeta.
  rewrite (check_in_customer_stores conn w n c a text R rest)
    by assumption.
  repeat split; reflexivity.
Qed.

(** X7.  A check-in in which the name, the contact, the address or the
    room number is false for Python (an empty text, room 0) is answered
    with the all-fields-required line; the four lines are read, nothing
    is sent and the server is as before. *)
Theorem missing_field_is_rejected
    (conn : handle) (w : world) (n c a text : string) (R : Z)
    (rest : list string) :
  Py.all [Py.truthy_str n; Py.truthy_str c; Py.truthy_str a;
          Py.truthy_int R] = false ->
  Py.int text = Some R ->
  stdin w = n :: c :: a :: text :: rest ->
  check_in_customer conn w =
    (Return tt,
     mkWorld (server w) (schedule w) (sessions w) (sent w) rest
       (stdout w ++
        [Line (Py.nl ++ "--- New Customer Check-In ---");
         Prompt "Enter customer's full name: ";
         Prompt "Enter contact number: ";
         Prompt "Enter address: ";
         Prompt "Enter allocated room number: ";
         Line "Error: All fields are required."])%list).
Proof.
  intros Hall Hint Hin.
  destruct w as [srv sch ses snt inp out]; simpl in *; subst inp.
  unfold check_in_customer; run.
  rewrite Hint; run. unfold Py.all in Hall; simpl in Hall. rewrite Hall; run.
  repeat rewrite <- app_assoc; reflexivity.
Qed.

(** X8.  A check-in whose room number [int] does not parse is answered
    with the must-be-an-integer line, after the four lines were read;
    nothing is sent and the server is as before. *)
Theorem unparsable_room_at_check_in
    (conn : handle) (w : world) (n c a text : string) (rest : list string) :
  Py.int text = None ->
  stdin w = n :: c :: a :: text :: rest ->
  check_in_customer conn w =
    (Return tt,
     mkWorld (server w) (schedule w) (sessions w) (sent w) rest
       (stdout w ++
        [Line (Py.nl ++ "--- New Customer Check-In ---");
         Prompt "Enter customer's full name: ";
         Prompt "Enter contact number: ";
         Prompt "Enter address: ";
         Prompt "Enter allocated room number: ";
         Line (Py.nl
               ++ "Invalid input. Room number must be an integer.")])%list).
Proof.
  intros Hint Hin.
  destruct w as [srv sch ses snt inp out]; simpl in *; subst inp.
  unfold check_in_customer; run.
  rewrite Hint; run.
  repeat rewrite <- app_assoc; reflexivity.
Qed.

(** X9.  A check-in that finds fewer than four lines on the console ends
    by [EOFError], which [check_in_customer] does not catch: the lines
    are consumed, nothing is sent and the server is as before. *)
Theorem check_in_needs_four_lines (conn : handle) (w : world) :
  (List.length (stdin w) < 4)%nat ->
  let w' := snd (check_in_customer conn w) in
  fst (check_in_customer conn w) = Raise EOFError
  /\ server w' = server w
  /\ schedule w' = schedule w
  /\ sessions w' = sessions w
  /\ sent w' = sent w
  /\ stdin w' = [].
Proof.
  intros Hlen.
  destruct w as [srv sch ses snt inp out]; simpl in Hlen.
  destruct inp as [|l1 [|l2 [|l3 [|l4 inp]]]]; simpl in Hlen; try lia;
    unfold check_in_customer; run; repeat split; reflexivity.
Qed.

(** X10.  When the INSERT of a check-in fails with an error whose number
    is not 1062, the check-in prints the text of the error after
    [An error occurred:] and returns; no COMMIT is sent and the server is
    as the INSERT found it. *)
Theorem failed_insert_is_reported
    (conn : handle) (w : world) (n c a text : string) (R : Z)
    (rest : list string) (e : MySQL.event) (sch : list MySQL.event)
    (err : MySQL.error) :
  nth conn (sessions w) false = true ->
  schedule w = e :: sch ->
  MySQL.fault e = Some err ->
  (MySQL.errno err =? 1062) = false ->
  Py.all [Py.truthy_str n; Py.truthy_str c; Py.truthy_str a;
          Py.truthy_int R] = true ->
  Py.int text = Some R ->
  stdin w = n :: c :: a :: text :: rest ->
  check_in_customer conn w =
    (Return tt,
     mkWorld (MySQL.meanwhile e (server w)) sch (sessions w)
       (sent w ++ [INSERT n c a R])%list rest
       (stdout w ++
        [Line (Py.nl ++ "--- New Customer Check-In ---");
         Prompt "Enter customer's full name: ";
         Prompt "Enter contact number: ";
         Prompt "Enter address: ";
         Prompt "Enter allocated room number: ";
         Line ("An error occurred: " ++ MySQL.errtext err)])%list).
Proof.
  intros Hopen Hsch Hf Hno Hall Hint Hin.
  destruct w as [srv sch0 ses snt inp out]; simpl in *; subst sch0 inp.
  unfold check_in_customer; run.
  rewrite Hint; run. unfold Py.all in Hall; simpl in Hall. rewrite Hall; run.
  rewrite Hopen; run.
  unfold execute; run. rewrite Hf; run. rewrite Hno; run.
  repeat rewrite <- app_assoc; reflexivity.
Qed.

(** X25.  A check-in that passes the presence check, to a vacant room,
    with values that no column refuses stores one new row at the end of
    the registry: the first 255, 20 and 65535 characters of the name, the
    contact and the address, so that trailing spaces beyond the length of
    a column are cut off, with the room number, the id taken from the
    counter of the table and the date from the clock of the server.  The
    success line names the guest as typed. *)
Theorem check_in_stores_what_the_columns_keep
    (conn : handle) (w : world) (n c a text : string) (R : Z)
    (rest : list string) :
  serving conn w ->
  MySQL.occupied R (MySQL.registry (server w)) = false ->
  Py.all [Py.truthy_str n; Py.truthy_str c; Py.truthy_str a;
          Py.truthy_int R] = true ->
  MySQL.refused n c a R = None ->
  Py.int text = Some R ->
  stdin w = n :: c :: a :: text :: rest ->
  check_in_customer conn w =
    (Return tt,
     mkWorld
       (MySQL.mkServer
          (Some (Some (MySQL.mkTable
             (MySQL.registry (server w)
              ++ [MySQL.mkCustomer (next_id (server w)) (MySQL.stored 255 n)
                    (MySQL.stored 20 c) (MySQL.stored 65535 a) R
                    (MySQL.now (server w))])%list
             (next_id (server w) + 1))))
          (MySQL.now (server w)))
       (tl (tl (schedule w))) (sessions w)
       (sent w ++ [INSERT n c a R; COMMIT])%list rest
       (stdout w ++
        [Line (Py.nl ++ "--- New Customer Check-In ---");
         Prompt "Enter customer's full name: ";
         Prompt "Enter contact number: ";
         Prompt "Enter address: ";
         Prompt "Enter allocated room number: ";
         Line (Py.nl ++ "Success! Customer '" ++ n ++ "' checked into room "
               ++ Py.str R ++ ".")])%list).
Proof.
  intros (Hopen & Hprov & Hcalm) Hvac Hall Href Hint Hin.
  open_world w; subst.
  unfold check_in_customer; run.
  rewrite Hint; run. unfold Py.all in Hall; simpl in Hall. rewrite Hall; run.
  rewrite Hopen; run. run_calm Hcalm. unfold MySQL.insert; simpl.
  rewrite Href, Hvac; run. run_calm Hcalm; run.
  unfold MySQL.with_table; simpl.
  repeat rewrite <- app_assoc; reflexivity.
Qed.

(** X26.  A check-in that passes the presence check with a value that
    its column refuses, a text too long by more than trailing spaces or a
    room number outside [INT], is answered with the error of the column
    after [An error occurred:], whether the room is occupied or not; the
    INSERT is sent, no COMMIT follows and the server is as before. *)
Theorem refused_value_is_reported
    (conn : handle) (w : world) (n c a text : string) (R : Z)
    (rest : list string) (err : MySQL.error) :
  serving conn w ->
  Py.all [Py.truthy_str n; Py.truthy_str c; Py.truthy_str a;
          Py.truthy_int R] = true ->
  MySQL.refused n c a R = Some err ->
  Py.int text = Some R ->
  stdin w = n :: c :: a :: text :: rest ->
  check_in_customer conn w =
    (Return tt,
     mkWorld (server w) (tl (schedule w)) (sessions w)
       (sent w ++ [INSERT n c a R])%list rest
       (stdout w ++
        [Line (Py.nl ++ "--- New Customer Check-In ---");
         Prompt "Enter customer's full name: ";
         Prompt "Enter contact number: ";
         Prompt "Enter address: ";
         Prompt "Enter allocated room number: ";
         Line ("An error occurred: " ++ MySQL.errtext err)])%list).
Proof.
  intros (Hopen & Hprov & Hcalm) Hall Href Hint Hin.
  open_world w; subst.
  unfold check_in_customer; run.
  rewrite Hint; run. unfold Py.all in Hall; simpl in Hall. rewrite Hall; run.
  rewrite Hopen; run. run_calm Hcalm. unfold MySQL.insert; simpl.
  rewrite Href; run. rewrite (refused_errno _ _ _ _ _ Href); run.
  repeat rewrite <- app_assoc; reflexivity.
Qed.

(** ** Look-up and check-out: the other outcomes *)

Lemma find_customer_found
    (conn : handle) (w : world) (text : string) (R : Z) (rest : list string)
    (guest : MySQL.customer) :
  serving conn w ->
  fetchone (MySQL.where_room_number R (MySQL.registry (server w)))
    = Some guest ->
  Py.int text = Some R ->
  stdin w = text :: rest ->
  find_customer conn w =
    (Return tt,
     mkWorld (server w) (tl (schedule w)) (sessions w)
       (sent w ++ [SELECT_BY_ROOM R])%list rest
       (stdout w ++
        [Line (Py.nl ++ "--- Find a Customer ---");
         Prompt "Enter the room number to find: ";
         Line (Py.nl ++ "Customer Found:");
         Line (Py.repeat "-" 20);
         Line ("  ID: " ++ Py.str (MySQL.id guest));
         Line ("  Name: " ++ MySQL.name guest);
         Line ("  Contact: " ++ MySQL.contact guest);
         Line ("  Address: " ++ MySQL.address guest);
         Line ("  Room Number: " ++ Py.str (MySQL.room_number guest));
         Line ("  Check-In Date: "
               ++ Py.strftime (MySQL.check_in_date guest));
         Line (Py.repeat "-" 20)])%list).
Proof.
  intros (Hopen & Hprov & Hcalm) Hg Hint Hin.
  open_world w; subst.
  destruct (MySQL.where_room_number R (MySQL.rows t)) as [|g l] eqn:Hw;
    [discriminate Hg|].
  injection Hg as ->.
  unfold find_customer; run. rewrite Hint; run. rewrite Hopen; run.
  run_calm Hcalm. unfold MySQL.select_by_room; simpl. rewrite Hw; run.
  repeat rewrite <- app_assoc; reflexivity.
Qed.

(** X11.  For an occupied room, [find_customer] displays the record the
    SELECT returns first for that room: its id, name, contact, address,
    room number and formatted date.  Only the SELECT is sent and the
    server is unchanged. *)
Theorem find_shows_the_occupant
    (conn : handle) (w : world) (text : string) (R : Z) (rest : list string) :
  serving conn w ->
  MySQL.occupied R (MySQL.registry (server w)) = true ->
  Py.int text = Some R ->
  stdin w = text :: rest ->
  exists guest,
    In guest (MySQL.registry (server w))
    /\ MySQL.room_number guest = R
    /\ find_customer conn w =
      (Return tt,
       mkWorld (server w) (tl (schedule w)) (sessions w)
         (sent w ++ [SELECT_BY_ROOM R])%list rest
         (stdout w ++
          [Line (Py.nl ++ "--- Find a Customer ---");
           Prompt "Enter the room number to find: ";
           Line (Py.nl ++ "Customer Found:");
           Line (Py.repeat "-" 20);
           Line ("  ID: " ++ Py.str (MySQL.id guest));
           Line ("  Name: " ++ MySQL.name guest);
           Line ("  Contact: " ++ MySQL.contact guest);
           Line ("  Address: " ++ MySQL.address guest);
           Line ("  Room Number: " ++ Py.str R);
           Line ("  Check-In Date: "
                 ++ Py.strftime (MySQL.check_in_date guest));
           Line (Py.repeat "-" 20)])%list).
Proof.
  intros Hs Hocc Hint Hin.
  destruct (where_occupied _ _ Hocc) as (guest & l' & Hw & Hg & Hr).
  exists guest; split; [exact Hg|]; split; [exact Hr|].
  subst R.
  apply (find_customer_found conn w text _ rest guest); try assumption.
  rewrite Hw; reflexivity.
Qed.

Lemma check_out_customer_answered
    (conn : handle) (w : world) (text answer : string) (R : Z)
    (rest : list string) (guest : MySQL.customer) :
  serving conn w ->
  fetchone (MySQL.where_room_number R (MySQL.registry (server w)))
    = Some guest ->
  Py.int text = Some R ->
  stdin w = text :: answer :: rest ->
  check_out_customer conn w =
    (Return tt,
     if String.eqb (Py.lower answer) "y"
     then
       mkWorld
         (MySQL.mkServer
            (Some (Some (MySQL.mkTable
               (filter (fun c => negb (MySQL.room_number c =? R))
                  (MySQL.registry (server w)))
               (next_id (server w)))))
            (MySQL.now (server w)))
         (tl (tl (tl (schedule w)))) (sessions w)
         (sent w ++ [SELECT_NAME R; DELETE R; COMMIT])%list rest
         (stdout w ++
          [Line (Py.nl ++ "--- Customer Check-Out ---");
           Prompt "Enter room number for check-out: ";
           Prompt ("Check out customer '" ++ MySQL.name guest
                   ++ "' from room " ++ Py.str R ++ "? (y/n): ");
           Line ("Success! Customer from room " ++ Py.str R
                 ++ " has been checked out.")])%list
     else
       mkWorld (server w) (tl (schedule w)) (sessions w)
         (sent w ++ [SELECT_NAME R])%list rest
         (stdout w ++
          [Line (Py.nl ++ "--- Customer Check-Out ---");
           Prompt "Enter room number for check-out: ";
           Prompt ("Check out customer '" ++ MySQL.name guest
                   ++ "' from room " ++ Py.str R ++ "? (y/n): ");
           Line "Check-out cancelled."])%list).
Proof.
  intros (Hopen & Hprov & Hcalm) Hg Hint Hin.
  open_world w; subst.
  destruct (MySQL.where_room_number R (MySQL.rows t)) as [|g l] eqn:Hw;
    [discriminate Hg|].
  injection Hg as ->.
  unfold check_out_customer; run. rewrite Hint; run. rewrite Hopen; run.
  run_calm Hcalm. unfold MySQL.select_name; simpl. rewrite Hw; run.
  destruct (String.eqb (Py.lower answer) "y"); run.
  - run_calm Hcalm. unfold MySQL.delete; simpl.
    rewrite Hw; run. run_calm Hcalm; run.
    unfold MySQL.with_table; simpl.
    repeat rewrite <- app_assoc; reflexivity.
  - repeat rewrite <- app_assoc; reflexivity.
Qed.

Lemma lower_ascii_is_y (ch : ascii) :
  Py.lower_ascii ch = "y"%char -> ch = "y"%char \/ ch = "Y"%char.
Proof.
  destruct ch as [[|] [|] [|] [|] [|] [|] [|] [|]];
    vm_compute; intros H; try discriminate H; auto.
Qed.

Lemma lower_is_y (s : string) :
  String.eqb (Py.lower s) "y" = true <-> s = "y" \/ s = "Y".
Proof.
  split.
  - intros H; apply String.eqb_eq in H.
    destruct s as [|ch [|ch' s]]; simpl in H; try discriminate H.
    injection H as H.
    destruct (lower_ascii_is_y ch H) as [-> | ->]; auto.
  - intros [-> | ->]; reflexivity.
Qed.

(** X12.  With a guest in room [R], the check-out removes the record
    exactly when the answer to the confirmation is [y] or [Y]: any other
    answer, [yes] included, leaves the room occupied. *)
Theorem only_y_confirms
    (conn : handle) (w : world) (text answer : string) (R : Z)
    (rest : list string) :
  serving conn w ->
  MySQL.occupied R (MySQL.registry (server w)) = true ->
  Py.int text = Some R ->
  stdin w = text :: answer :: rest ->
  let w' := snd (check_out_customer conn w) in
  (MySQL.occupied R (MySQL.registry (server w')) = false
   <-> answer = "y" \/ answer = "Y")
  /\ (In (DELETE R) (sent w') <-> In (DELETE R) (sent w)
                                  \/ answer = "y" \/ answer = "Y").
Proof.
  intros Hs Hocc Hint Hin; cbv zeta.
  destruct (where_occupied _ _ Hocc) as (guest & l' & Hw & _ & _).
  rewrite (check_out_customer_answered conn w text answer R rest guest)
    by (try assumption; rewrite Hw; reflexivity).
  rewrite <- lower_is_y.
  destruct (String.eqb (Py.lower answer) "y"); simpl; split.
  - split; [reflexivity|]. intros _.
    unfold MySQL.registry; simpl. apply occupied_after_delete.
  - rewrite in_app_iff; simpl; tauto.
  - rewrite Hocc; split; intros H; discriminate H.
  - rewrite in_app_iff; simpl.
    split; [intros [H|[H|[]]]; [auto | discriminate H]|].
    intros [H|H]; [auto | discriminate H].
Qed.

Lemma registry_of_table (rows : list MySQL.customer) (k : Z)
    (clock : Py.datetime) :
  MySQL.registry (MySQL.mkServer (Some (Some (MySQL.mkTable rows k))) clock)
    = rows.
Proof. reflexivity. Qed.

Lemma next_id_of_table (rows : list MySQL.customer) (k : Z)
    (clock : Py.datetime) :
  next_id (MySQL.mkServer (Some (Some (MySQL.mkTable rows k))) clock) = k.
Proof. reflexivity. Qed.

(** X13.  A check-in to a vacant room followed by a confirmed check-out
    of that room leaves the rows of the registry as they were before
    the check-in; only the counter of the table has moved on. *)
Theorem check_in_then_check_out_restores
    (conn : handle) (w : world) (n c a text again answer : string) (R : Z)
    (rest : list string) :
  serving conn w ->
  MySQL.occupied R (MySQL.registry (server w)) = false ->
  Py.all [Py.truthy_str n; Py.truthy_str c; Py.truthy_str a;
          Py.truthy_int R] = true ->
  MySQL.fits n c a R = None ->
  Py.int text = Some R -> Py.int again = Some R ->
  String.eqb (Py.lower answer) "y" = true ->
  stdin w = n :: c :: a :: text :: again :: answer :: rest ->
  let w1 := snd (check_in_customer conn w) in
  let w2 := snd (check_out_customer conn w1) in
  fst (check_in_customer conn w) = Return tt
  /\ fst (check_out_customer conn w1) = Return tt
  /\ MySQL.registry (server w2) = MySQL.registry (server w)
  /\ next_id (server w2) = next_id (server w) + 1
  /\ sent w2 = (sent w ++ [INSERT n c a R; COMMIT;
                           SELECT_NAME R; DELETE R; COMMIT])%list
  /\ stdin w2 = rest.
Proof.
  intros Hs Hvac Hall Hfit Hint Hagain Hyes Hin; cbv zeta.
  rewrite (check_in_customer_stores conn w n c a text R
             (again :: answer :: rest)) by assumption.
  destruct Hs as (Hopen & Hprov & Hcalm).
  cbn [fst snd].
  rewrite (check_out_customer_answered conn _ again answer R rest
             (MySQL.mkCustomer (next_id (server w)) n c a R
                (MySQL.now (server w)))).
  - rewrite Hyes. cbn [fst snd server sent stdin].
    rewrite !registry_of_table, !next_id_of_table.
    rewrite filter_app, (filter_vacant _ _ Hvac).
    cbn [filter MySQL.room_number].
    rewrite Z.eqb_refl; cbn [negb].
    rewrite app_nil_r, <- app_assoc.
    repeat split; reflexivity.
  - repeat split; cbn [sessions server schedule]; auto.
    unfold calm in *; cbn [schedule]. auto using quiet_tl.
  - cbn [server]. rewrite registry_of_table.
    unfold MySQL.where_room_number.
    rewrite filter_app.
    fold (MySQL.where_room_number R (MySQL.registry (server w))).
    rewrite (where_vacant _ _ Hvac); cbn [filter MySQL.room_number app].
    rewrite Z.eqb_refl; reflexivity.
  - exact Hagain.
  - reflexivity.
Qed.

(** ** Exceptions that leave an operation *)

Lemma raises_any {A} (c : M A) : raises (fun _ => True) c.
Proof. intros w e _; exact I. Qed.

Lemma raises_ret {A} (P : exn -> Prop) (a : A) : raises P (ret a).
Proof. intros w e H; discriminate H. Qed.

Lemma raises_print (P : exn -> Prop) (s : string) : raises P (print s).
Proof. intros w e H; discriminate H. Qed.

Lemma raises_input (P : exn -> Prop) (s : string) :
  P EOFError -> raises P (input s).
Proof.
  intros HP w e; unfold input; destruct (stdin w); simpl; intros H;
    [injection H as <-; exact HP | discriminate H].
Qed.

Lemma raises_int (P : exn -> Prop) (s : string) :
  P ValueError -> raises P (int s).
Proof.
  intros HP w e; unfold int; destruct (Py.int s); simpl; intros H;
    [discriminate H | injection H as <-; exact HP].
Qed.

Lemma raises_bind {A B} (P : exn -> Prop) (c : M A) (k : A -> M B) :
  raises P c -> (forall a, raises P (k a)) -> raises P (bind c k).
Proof.
  intros Hc Hk w e; unfold bind.
  specialize (Hc w); destruct (c w) as [[a|e'] w1]; simpl in *.
  - apply Hk.
  - intros H; injection H as <-; apply Hc; reflexivity.
Qed.

Lemma raises_execute {A} (P : exn -> Prop) (q : statement)
    (run : MySQL.server -> MySQL.error + (MySQL.server * A)) :
  (forall err, P (Error err)) -> raises P (execute q run).
Proof.
  intros HP w e; unfold execute.
  destruct (MySQL.fault _); simpl;
    [intros H; injection H as <-; apply HP|].
  destruct (run _) as [err|[s a]]; simpl; intros H;
    [injection H as <-; apply HP | discriminate H].
Qed.

Lemma raises_cursor (P : exn -> Prop) (conn : handle) :
  (forall err, P (Error err)) -> raises P (cursor conn).
Proof.
  intros HP w e; unfold cursor, is_connected, bind; simpl.
  destruct (nth conn (sessions w) false); simpl; intros H;
    [discriminate H | injection H as <-; apply HP].
Qed.

Lemma raises_for_each_print {A} (P : exn -> Prop) (l : list A)
    (f : A -> string) :
  raises P (for_each l (fun a => print (f a))).
Proof.
  induction l as [|a l IH]; cbn [for_each]; [apply raises_ret|].
  apply raises_bind; [apply raises_print | intros _; exact IH].
Qed.

Lemma from_the_store_error (err : MySQL.error) : from_the_store (Error err).
Proof. exists err; reflexivity. Qed.

Ltac raises_step :=
  lazymatch goal with
  | |- raises _ (bind _ _) => apply raises_bind; [|intros ?]
  | |- raises _ (print _) => apply raises_print
  | |- raises _ (ret _) => apply raises_ret
  | |- raises _ (input _) => apply raises_input
  | |- raises _ (int _) => apply raises_int
  | |- raises _ (execute _ _) => apply raises_execute
  | |- raises _ (cursor _) => apply raises_cursor
  | |- raises _ (for_each _ _) => apply raises_for_each_print
  | |- raises _ (match ?x with _ => _ end) => destruct x
  | |- from_the_store (Error _) => apply from_the_store_error
  | |- forall _, from_the_store (Error _) => apply from_the_store_error
  end.

Lemma raises_try_except {A} (P Q : exn -> Prop) (body : M A)
    (handler : exn -> option (M A)) :
  raises Q body ->
  (forall e, Q e ->
             match handler e with
             | Some h => raises P h
             | None => P e
             end) ->
  raises P (try_except body handler).
Proof.
  intros Hb Hh w e; unfold try_except.
  specialize (Hb w); destruct (body w) as [[a|e'] w1]; simpl in *.
  - intros H; discriminate H.
  - specialize (Hh e' (Hb e' eq_refl)).
    destruct (handler e') as [h|]; simpl.
    + apply Hh.
    + intros H; injection H as <-; exact Hh.
Qed.

Lemma check_in_customer_raises (conn : handle) :
  raises (fun e => e = EOFError) (check_in_customer conn).
Proof.
  unfold check_in_customer.
  apply raises_bind; [apply raises_print | intros _].
  apply (raises_try_except _ not_from_the_store).
  - repeat (apply raises_bind;
            [apply raises_input; right; reflexivity | intros ?]).
    apply raises_bind; [apply raises_int; left; reflexivity | intros R].
    apply (raises_try_except _ (fun _ => True)); [apply raises_any|].
    intros [ | |err] _; cbn; [left | right | ]; try reflexivity.
    destruct (MySQL.errno err =? 1062); apply raises_print.
  - intros e [-> | ->]; cbn; [apply raises_print | reflexivity].
Qed.

Lemma view_all_customers_raises (conn : handle) :
  raises (fun _ => False) (view_all_customers conn).
Proof.
  unfold view_all_customers.
  apply raises_bind; [apply raises_print | intros _].
  apply (raises_try_except _ from_the_store).
  - repeat raises_step.
  - intros e [err ->]; cbn; apply raises_print.
Qed.

Lemma find_customer_raises (conn : handle) :
  raises (fun e => e = EOFError) (find_customer conn).
Proof.
  unfold find_customer.
  apply raises_bind; [apply raises_print | intros _].
  apply (raises_try_except _ (fun _ => True)); [apply raises_any|].
  intros [ | |err] _; cbn; [apply raises_print | reflexivity
                           | apply raises_print].
Qed.

Lemma check_out_customer_raises (conn : handle) :
  raises (fun e => e = EOFError) (check_out_customer conn).
Proof.
  unfold check_out_customer.
  apply raises_bind; [apply raises_print | intros _].
  apply (raises_try_except _ (fun _ => True)); [apply raises_any|].
  intros [ | |err] _; cbn; [apply raises_print | reflexivity
                           | apply raises_print].
Qed.

Lemma returns_or_raises {A} (P : exn -> Prop) (c : M A) (w : world) :
  raises P c ->
  (exists a, fst (c w) = Return a) \/ (exists e, fst (c w) = Raise e /\ P e).
Proof.
  intros H; specialize (H w); destruct (fst (c w)) as [a|e].
  - left; exists a; reflexivity.
  - right; exists e; split; [reflexivity | apply H; reflexivity].
Qed.

(** X14.  Whatever the server answers and whatever is typed, no
    [ValueError] and no [mysql.connector.Error] leaves a registry
    operation: the listing always returns, and check-in, look-up and
    check-out return or end by [EOFError] when the console input is
    exhausted. *)
Theorem operations_raise_only_EOFError (conn : handle) (w : world) :
  (fst (check_in_customer conn w) = Return tt
   \/ fst (check_in_customer conn w) = Raise EOFError)
  /\ fst (view_all_customers conn w) = Return tt
  /\ (fst (find_customer conn w) = Return tt
      \/ fst (find_customer conn w) = Raise EOFError)
  /\ (fst (check_out_customer conn w) = Return tt
      \/ fst (check_out_customer conn w) = Raise EOFError).
Proof.
  repeat split.
  - destruct (returns_or_raises _ _ w (check_in_customer_raises conn))
      as [[[] H] | (e & H & ->)]; auto.
  - destruct (returns_or_raises _ _ w (view_all_customers_raises conn))
      as [[[] H] | (e & H & [])]; auto.
  - destruct (returns_or_raises _ _ w (find_customer_raises conn))
      as [[[] H] | (e & H & ->)]; auto.
  - destruct (returns_or_raises _ _ w (check_out_customer_raises conn))
      as [[[] H] | (e & H & ->)]; auto.
Qed.

Lemma setup_database_raises : raises (fun _ => False) setup_database.
Proof.
  unfold setup_database.
  apply (raises_try_except _ from_the_store).
  - unfold connect, connect_database.
    apply raises_bind; [repeat raises_step | intros server_conn].
    + intros w e H; discriminate H.
    + apply raises_bind; [repeat raises_step | intros _].
      apply raises_bind.
      * apply (raises_try_except _ from_the_store); [repeat raises_step|].
        intros e [err ->]; cbn.
        destruct (MySQL.errno err =? MySQL.ER_DB_CREATE_EXISTS);
          [apply raises_ret|].
        intros w e H; injection H as <-; apply from_the_store_error.
      * intros _. apply raises_bind; [intros w e H; discriminate H|].
        intros _. apply raises_bind; [repeat raises_step | intros db_conn].
        -- intros w e H; discriminate H.
        -- repeat raises_step.
  - intros e [err ->]; cbn.
    apply raises_bind; [apply raises_print | intros _; apply raises_ret].
Qed.

Lemma iteration_raises (conn : handle) :
  raises (fun e => e = EOFError) (iteration conn).
Proof.
  unfold iteration, menu.
  apply raises_bind.
  - repeat (apply raises_bind; [apply raises_print | intros _]).
    apply raises_input; reflexivity.
  - intros choice.
    repeat match goal with
           | |- raises _ (if ?b then _ else _) => destruct b
           end;
      (apply raises_bind; [|intros _; apply raises_ret]);
      first [ apply check_in_customer_raises
            | apply find_customer_raises
            | apply check_out_customer_raises
            | apply raises_print
            | intros w e H;
              destruct (view_all_customers_raises conn w e H) ].
Qed.

Lemma loop_raises (fuel : nat) (conn : handle) (w w' : world) (e : exn) :
  loop fuel conn w = Some (Raise e, w') -> e = EOFError.
Proof.
  revert w; induction fuel as [|fuel IH]; intros w; cbn [loop];
    [intros H; discriminate H|].
  pose proof (iteration_raises conn w) as Hit.
  destruct (iteration conn w) as [[[|]|e'] w1]; simpl in Hit.
  - intros H; discriminate H.
  - apply IH.
  - intros H; injection H as <- _; apply Hit; reflexivity.
Qed.

(** X15.  No error of the store ends the menu loop: whatever the server
    answers and whatever is typed, a run of the loop that is ended by an
    exception is not ended by a [mysql.connector.Error].  Every such
    error is caught by the operation that met it, and the loop goes on
    to the next menu. *)
Theorem store_errors_stay_in_the_loop
    (fuel : nat) (conn : handle) (w w' : world) (e : exn) :
  loop fuel conn w = Some (Raise e, w') ->
  forall err, e <> Error err.
Proof.
  intros H err Herr.
  rewrite (loop_raises _ _ _ _ _ H) in Herr; discriminate Herr.
Qed.

(** ** What the operations never do *)

Ltac quiet_step :=
  lazy beta iota zeta delta
    [bind try_except cursor is_connected ret raise query served fst snd
     server schedule sessions sent stdin stdout].

Ltac answer_of_the_server :=
  repeat
    (match goal with
     | |- context [MySQL.fault ?e] => destruct (MySQL.fault e) eqn:?
     | |- context [MySQL.select_all ?s] =>
         destruct (MySQL.select_all s) as [?|[|? ?]] eqn:?
     | |- context [MySQL.select_by_room ?r ?s] =>
         destruct (MySQL.select_by_room r s)
           as [?|[|[[[[[? ?] ?] ?] ?] ?] ?]] eqn:?
     | |- context [MySQL.select_name ?r ?s] =>
         destruct (MySQL.select_name r s) as [?|[|? ?]] eqn:?
     | |- context [MySQL.delete ?r ?s] =>
         destruct (MySQL.delete r s) as [?|[? ?]] eqn:?
     | |- context [if ?k >? 0 then _ else _] => destruct (k >? 0)
     end; run).

(** X16.  The listing and the look-up never write: whatever the schedule
    and the input, each sends at most one statement, a SELECT, and leaves
    the server as the activity of the other sessions made it. *)
Theorem lookups_never_write (conn : handle) (w : world) :
  let quiet := MySQL.mkEvent [] None in
  let seen := MySQL.meanwhile (hd quiet (schedule w)) (server w) in
  let v := snd (view_all_customers conn w) in
  let f := snd (find_customer conn w) in
  ((sent v = sent w /\ server v = server w)
   \/ (sent v = (sent w ++ [SELECT_ALL])%list /\ server v = seen))
  /\ ((sent f = sent w /\ server f = server w)
      \/ (exists R, sent f = (sent w ++ [SELECT_BY_ROOM R])%list
                    /\ server f = seen)).
Proof.
  destruct w as [srv sch ses snt inp out]; cbv zeta; split.
  - unfold view_all_customers. quiet_step. rewrite print_run. quiet_step.
    destruct (nth conn ses false); quiet_step;
      [|rewrite print_run; left; split; reflexivity].
    unfold execute; quiet_step.
    destruct (MySQL.fault _); quiet_step;
      [rewrite print_run; right; split; reflexivity|].
    destruct (MySQL.select_all _) as [err|[|row rows]]; quiet_step;
      repeat (rewrite print_run; quiet_step);
      try (rewrite for_each_print; quiet_step);
      right; split; reflexivity.
  - unfold find_customer; run.
    destruct inp as [|text inp]; run; [left; split; reflexivity|].
    destruct (Py.int text) as [R|]; run; [|left; split; reflexivity].
    destruct (nth conn ses false); run; [|left; split; reflexivity].
    unfold execute; run. answer_of_the_server;
      right; exists R; split; reflexivity.
Qed.

(** X17.  [check_out_customer] sends a DELETE for a room only after the
    room number was read from the console and the answer read next is
    [y] or [Y], whatever the schedule: without that confirmation no
    DELETE leaves the program. *)
Theorem no_delete_without_confirmation
    (conn : handle) (w : world) (r : Z) :
  In (DELETE r) (sent (snd (check_out_customer conn w))) ->
  In (DELETE r) (sent w)
  \/ exists text answer rest,
       stdin w = text :: answer :: rest
       /\ Py.int text = Some r
       /\ (answer = "y" \/ answer = "Y").
Proof.
  destruct w as [srv sch ses snt inp out].
  unfold check_out_customer; run.
  destruct inp as [|text inp]; run; [auto|].
  destruct (Py.int text) as [R|] eqn:Hint; run; [|auto].
  destruct (nth conn ses false); run; [|auto].
  unfold execute at 1; run.
  destruct (MySQL.fault _); run;
    [rewrite in_app_iff; simpl; intros [H|[H|[]]]; [auto | discriminate H]|].
  destruct (MySQL.select_name R _) as [err|[|name names]]; run;
    try (rewrite in_app_iff; simpl; intros [H|[H|[]]];
         [auto | discriminate H]).
  destruct inp as [|answer rest]; run;
    [rewrite in_app_iff; simpl; intros [H|[H|[]]]; [auto | discriminate H]|].
  destruct (String.eqb (Py.lower answer) "y") eqn:Hyes; run;
    [|rewrite in_app_iff; simpl; intros [H|[H|[]]]; [auto | discriminate H]].
  apply lower_is_y in Hyes.
  intros Hin.
  assert (Hr : In (DELETE r) snt \/ r = R).
  { revert Hin. unfold execute; run. answer_of_the_server;
      repeat rewrite in_app_iff; simpl;
      intros H; decompose [or] H; auto; try discriminate;
      match goal with
      | E : DELETE _ = DELETE _ |- _ => injection E as ->; auto
      | E : False |- _ => destruct E
      end. }
  destruct Hr as [H | ->]; [auto|].
  right; exists text, answer, rest; auto.
Qed.

(** ** Provisioning: the other outcomes *)




(** X19.  When the server refuses the first connection, [main] prints
    the error and the exit line and returns: it has read nothing from
    the console, opened no session and sent nothing but the connection
    request. *)
Theorem refused_connection_ends_main
    (w : world) (e : MySQL.event) (sch : list MySQL.event)
    (err : MySQL.error) :
  schedule w = e :: sch ->
  MySQL.fault e = Some err ->
  main w =
    Some (Return tt,
          mkWorld (MySQL.meanwhile e (server w)) sch (sessions w)
            (sent w ++ [CONNECT])%list (stdin w)
            (stdout w ++
             [Line ("Database setup error: " ++ MySQL.errtext err);
              Line "Exiting due to database connection failure."])%list).
Proof.
  intros Hsch Hf.
  destruct w as [srv sch0 ses snt inp out]; simpl in *; subst sch0.
  assert (Hsetup :
    setup_database (mkWorld srv (e :: sch) ses snt inp out) =
      (Return None,
       mkWorld (MySQL.meanwhile e srv) sch ses (snt ++ [CONNECT])%list inp
         (out ++ [Line ("Database setup error: " ++ MySQL.errtext err)])%list)).
  { unfold setup_database, connect, connect_database, open_session, execute.
    run. rewrite Hf; run. reflexivity. }
  unfold main; rewrite Hsetup. rewrite print_run.
  cbn [server schedule sessions sent stdin stdout].
  rewrite <- app_assoc; reflexivity.
Qed.

(** X20.  When CREATE DATABASE fails with an error other than
    database-exists, [setup_database] returns no session and leaves open
    the session to the server that it had opened: the error skips the
    [close] that follows. *)
Theorem failed_creation_leaves_a_session_open
    (w : world) (e1 e2 : MySQL.event) (sch : list MySQL.event)
    (err : MySQL.error) :
  schedule w = e1 :: e2 :: sch ->
  MySQL.fault e1 = None ->
  MySQL.fault e2 = Some err ->
  MySQL.errno err <> MySQL.ER_DB_CREATE_EXISTS ->
  let w' := snd (setup_database w) in
  fst (setup_database w) = Return None
  /\ sessions w' = (sessions w ++ [true])%list
  /\ sent w' = (sent w ++ [CONNECT; CREATE_DATABASE])%list
  /\ stdout w' =
       (stdout w ++
        [Line ("Database setup error: " ++ MySQL.errtext err)])%list.
Proof.
  intros Hsch Hf1 Hf2 Herr.
  destruct w as [srv sch0 ses snt inp out]; simpl in *; subst sch0.
  unfold setup_database, connect, connect_database, open_session, execute.
  run. rewrite Hf1; run. rewrite nth_snoc; run. rewrite Hf2; run.
  apply Z.eqb_neq in Herr; rewrite Herr; run.
  repeat rewrite <- app_assoc; repeat split; reflexivity.
Qed.

(** ** The menu *)

(** X21.  A choice that is not exactly one of [1] to [5] (a choice with
    a space around it, an empty line) is answered with the invalid-choice
    line: the pass sends nothing, changes nothing but the console, and
    the loop goes on. *)
Theorem invalid_choice_changes_nothing
    (conn : handle) (w : world) (choice : string) (rest : list string) :
  stdin w = choice :: rest ->
  ~ In choice ["1"; "2"; "3"; "4"; "5"] ->
  iteration conn w =
    (Return false,
     mkWorld (server w) (schedule w) (sessions w) (sent w) rest
       (stdout w ++ menu_lines
        ++ [Line "Invalid choice. Please select a valid option."])%list).
Proof.
  intros Hin Hno.
  destruct w as [srv sch ses snt inp out]; simpl in *; subst inp.
  unfold iteration, menu; quiet_step.
  repeat (rewrite print_run; quiet_step).
  unfold input; quiet_step.
  repeat match goal with
         | |- context [String.eqb choice ?c] =>
             destruct (String.eqb_spec choice c) as [->|_];
             [exfalso; apply Hno; simpl; tauto|]
         end.
  rewrite print_run; quiet_step.
  unfold menu_lines; repeat rewrite <- app_assoc; reflexivity.
Qed.

(** X22.  When the first choice is [5], [main] provisions the store in a
    calm world, says goodbye and closes the session it was given: no
    record changes and the four provisioning statements are all that is
    sent. *)
Theorem exit_at_the_first_menu (w : world) (rest : list string) :
  calm w ->
  stdin w = "5" :: rest ->
  exists conn w',
    main w = Some (Return tt, w')
    /\ fst (setup_database w) = Return (Some conn)
    /\ nth conn (sessions w') false = false
    /\ MySQL.registry (server w') = MySQL.registry (server w)
    /\ sent w' =
         (sent w ++ [CONNECT; CREATE_DATABASE; CONNECT_DATABASE;
                     CREATE_TABLE_IF_NOT_EXISTS])%list
    /\ stdin w' = rest
    /\ stdout w' =
         (stdout w ++
          [Line "Ensuring 'customers' table exists...";
           Line "Database and table are ready."]
          ++ menu_lines
          ++ [Line "Exiting the system. Goodbye!";
              Line "MySQL connection is closed."])%list.
Proof.
  intros Hcalm Hin.
  destruct (setup_database_calm w Hcalm)
    as (conn & w1 & Hsetup & (Hopen & _ & _) & Hreg & _ & Hsent & Hin1 & Hout).
  destruct w1 as [srv1 sch1 ses1 snt1 inp1 out1].
  cbn [server sessions sent stdin stdout] in Hopen, Hreg, Hsent, Hin1, Hout.
  rewrite Hin in Hin1; subst inp1.
  unfold main; rewrite Hsetup.
  cbn [loop List.length stdin].
  unfold iteration, menu; quiet_step.
  repeat (rewrite print_run; quiet_step).
  unfold input; quiet_step.
  change (String.eqb "5" "1") with false.
  change (String.eqb "5" "2") with false.
  change (String.eqb "5" "3") with false.
  change (String.eqb "5" "4") with false.
  change (String.eqb "5" "5") with true.
  cbv iota. quiet_step. rewrite print_run; quiet_step.
  rewrite Hopen. unfold close; quiet_step. rewrite print_run; quiet_step.
  exists conn; eexists; split; [reflexivity|].
  cbn [server sessions sent stdin stdout].
  split; [reflexivity|].
  split; [apply nth_set_nth|].
  split; [exact Hreg|].
  split; [exact Hsent|].
  split; [reflexivity|].
  rewrite Hout. unfold menu_lines.
  repeat rewrite <- app_assoc; reflexivity.
Qed.

(** ** Invariants of the store *)

Section StoreInvariant.

Variable I : MySQL.server -> Prop.
Hypothesis I_insert :
  forall n c a r s s', I s -> MySQL.insert n c a r s = inr s' -> I s'.
Hypothesis I_delete :
  forall r s s' k, I s -> MySQL.delete r s = inr (s', k) -> I s'.
Hypothesis I_tick :
  forall s t, I s -> I (MySQL.mkServer (MySQL.hotel_db s) t).
Hypothesis I_create_database :
  forall s s', I s -> MySQL.create_database s = inr s' -> I s'.
Hypothesis I_create_table :
  forall s s', I s -> MySQL.create_table_if_not_exists s = inr s' -> I s'.

Lemma preserves_refl (w : world) : preserves I w w.
Proof. intros H; exact H. Qed.

Lemma preserves_trans (u v w : world) :
  preserves I u v -> preserves I v w -> preserves I u w.
Proof. unfold preserves; auto. Qed.

Lemma act_preserves (a : MySQL.activity) (s : MySQL.server) :
  I s -> I (MySQL.act a s).
Proof.
  intros H; destruct a as [n c ad r|r|t]; cbn [MySQL.act].
  - match goal with |- context [if ?b then _ else _] => destruct b end;
      [|exact H].
    destruct (MySQL.insert n c ad r s) as [e|s'] eqn:Ei; [exact H|].
    exact (I_insert _ _ _ _ _ _ H Ei).
  - destruct (MySQL.delete r s) as [e|[s' k]] eqn:Ed; [exact H|].
    exact (I_delete _ _ _ _ H Ed).
  - apply I_tick, H.
Qed.

Lemma meanwhile_preserves (e : MySQL.event) (s : MySQL.server) :
  I s -> I (MySQL.meanwhile e s).
Proof.
  unfold MySQL.meanwhile; generalize (MySQL.others e); intros l.
  revert s; induction l as [|a l IH]; intros s H; [exact H|].
  apply IH, act_preserves, H.
Qed.

Lemma execute_preserves {A} (q : statement)
    (run : MySQL.server -> MySQL.error + (MySQL.server * A)) :
  (forall s s' a, I s -> run s = inr (s', a) -> I s') ->
  respects (preserves I) (execute q run).
Proof.
  intros Hrun w H; unfold execute.
  pose proof (meanwhile_preserves
                (hd (MySQL.mkEvent [] None) (schedule w)) _ H) as Hm.
  destruct (MySQL.fault _); [exact Hm|].
  destruct (run _) as [e|[s' a]] eqn:E; [exact Hm|].
  exact (Hrun _ _ _ Hm E).
Qed.

Lemma update_preserves
    (f : MySQL.server -> MySQL.error + MySQL.server) :
  (forall s s', I s -> f s = inr s' -> I s') ->
  forall s s' a, I s -> update f s = inr (s', a) -> I s'.
Proof.
  intros Hf s s' a H; unfold update.
  destruct (f s) as [e|s1] eqn:E; [discriminate|].
  intros E'; injection E' as <- _; exact (Hf _ _ H E).
Qed.

Lemma query_preserves {A} (f : MySQL.server -> MySQL.error + A) :
  forall s s' a, I s -> query f s = inr (s', a) -> I s'.
Proof.
  intros s s' a H; unfold query.
  destruct (f s); [discriminate|]. intros E; injection E as <- _; exact H.
Qed.

Ltac preserves_tac :=
  respects_with preserves_refl preserves_trans
    ltac:(idtac; lazymatch goal with
          | |- respects _ (print _) => intros ? ?; assumption
          | |- respects _ (input _) =>
              let w := fresh in
              intros w ?; unfold input; destruct (stdin w); assumption
          | |- respects _ (close _) => intros ? ?; assumption
          | |- respects _ (fun _ => (Return _, _)) => intros ? ?; assumption
          | |- respects _ (commit _) =>
              let E := fresh in
              apply execute_preserves; intros ? ? ? ? E;
              injection E as <- _; assumption
          | |- respects _ (execute _ (query _)) =>
              apply execute_preserves; apply query_preserves
          | |- respects _ (execute _ (MySQL.delete _)) =>
              apply execute_preserves; intros ? ? ?; apply I_delete
          | |- respects _ (execute _ (update (MySQL.insert _ _ _ _))) =>
              apply execute_preserves; apply update_preserves;
              intros ? ?; apply I_insert
          | |- respects _ (execute _ (update MySQL.create_database)) =>
              apply execute_preserves; apply update_preserves;
              apply I_create_database
          | |- respects _
                 (execute _ (update MySQL.create_table_if_not_exists)) =>
              apply execute_preserves; apply update_preserves;
              apply I_create_table
          | |- respects _ (execute _ _) =>
              let E := fresh in
              apply execute_preserves; intros ? ? ? ? E; cbv beta in E;
              injection E as <- _; assumption
          | |- respects _ connect => unfold connect, open_session
          | |- respects _ connect_database =>
              unfold connect_database, open_session
          | |- respects _ menu => unfold menu
          | |- respects _ (check_in_customer _) => unfold check_in_customer
          | |- respects _ (view_all_customers _) => unfold view_all_customers
          | |- respects _ (find_customer _) => unfold find_customer
          | |- respects _ (check_out_customer _) => unfold check_out_customer
          end).

Lemma setup_database_preserves : respects (preserves I) setup_database.
Proof. unfold setup_database; preserves_tac. Qed.

Lemma iteration_preserves (conn : handle) :
  respects (preserves I) (iteration conn).
Proof. unfold iteration; preserves_tac. Qed.

Lemma loop_preserves (fuel : nat) (conn : handle) (w w' : world)
    (r : result unit) :
  loop fuel conn w = Some (r, w') -> preserves I w w'.
Proof.
  revert w; induction fuel as [|fuel IH]; intros w; cbn [loop];
    [intros H; discriminate H|].
  pose proof (iteration_preserves conn w) as Hit.
  destruct (iteration conn w) as [[[|]|e] w1]; simpl in Hit.
  - intros H; injection H as _ <-; exact Hit.
  - intros H; eapply preserves_trans; [exact Hit | apply IH, H].
  - intros H; injection H as _ <-; exact Hit.
Qed.

Lemma main_preserves (w w' : world) (r : result unit) :
  main w = Some (r, w') -> preserves I w w'.
Proof.
  intros Hmain Hi; revert Hmain; unfold main.
  pose proof (setup_database_preserves w Hi) as H1.
  destruct (setup_database w) as [[[conn|]|e] w1]; simpl in H1.
  - destruct (loop _ conn w1) as [[[[]|e] w2]|] eqn:El.
    + intros H. apply loop_preserves in El. specialize (El H1).
      revert H; unfold bind, is_connected.
      destruct (nth conn (sessions w2) false);
        intros H; injection H as _ <-; exact El.
    + intros H; injection H as _ <-. apply loop_preserves in El.
      exact (El H1).
    + intros H; discriminate H.
  - intros H; injection H as _ <-; exact H1.
  - intros H; injection H as _ <-; exact H1.
Qed.

End StoreInvariant.

Lemma NoDup_snoc {A} (l : list A) (a : A) :
  NoDup l -> ~ In a l -> NoDup (l ++ [a]).
Proof.
  intros Hl Ha. apply NoDup_app; [exact Hl | repeat constructor; intros [] |].
  intros x Hx [<-|[]]; exact (Ha Hx).
Qed.

Lemma column_stays_unique {K} (column : MySQL.customer -> K)
    (keep : MySQL.customer -> bool) (rows : list MySQL.customer) :
  NoDup (map column rows) -> NoDup (map column (filter keep rows)).
Proof.
  induction rows as [|row rows IH]; cbn [map filter]; intros Huniq;
    [constructor|].
  apply NoDup_cons_iff in Huniq; destruct Huniq as [Hfresh Huniq].
  destruct (keep row); cbn [map]; [|exact (IH Huniq)].
  apply NoDup_cons_iff; split; [|exact (IH Huniq)].
  intros Hin; apply Hfresh.
  apply in_map_iff in Hin; destruct Hin as (other & Hsame & Hkept).
  apply filter_In in Hkept.
  apply in_map_iff; exists other; tauto.
Qed.

Lemma vacant_not_in (r : Z) (l : list MySQL.customer) :
  MySQL.occupied r l = false -> ~ In r (map MySQL.room_number l).
Proof.
  unfold MySQL.occupied; induction l as [|c l IH]; simpl; [tauto|].
  destruct (MySQL.room_number c =? r) eqn:E; simpl; [discriminate|].
  intros H [Hc|Hin]; [|exact (IH H Hin)].
  apply Z.eqb_neq in E; exact (E Hc).
Qed.

Lemma insert_constrained (n c a : string) (r : Z) (s s' : MySQL.server) :
  constrained s -> MySQL.insert n c a r s = inr s' -> constrained s'.
Proof.
  unfold constrained, MySQL.insert, MySQL.the_table, MySQL.registry, next_id.
  destruct (MySQL.hotel_db s) as [[t|]|]; try discriminate.
  intros (Hr & Hi & Hlt).
  destruct (MySQL.refused n c a r); [discriminate|].
  destruct (MySQL.occupied r (MySQL.rows t)) eqn:Hocc; [discriminate|].
  intros H; injection H as <-; simpl.
  rewrite !map_app; simpl. repeat split.
  - apply NoDup_snoc; [exact Hr | apply vacant_not_in, Hocc].
  - apply NoDup_snoc; [exact Hi|].
    intros Hin; apply in_map_iff in Hin; destruct Hin as (x & Hx & Hin).
    rewrite Forall_forall in Hlt; specialize (Hlt x Hin); lia.
  - apply Forall_app; split.
    + eapply Forall_impl; [|exact Hlt]. intros x Hx; simpl in *; lia.
    + constructor; [simpl; lia | constructor].
Qed.

Lemma delete_constrained (r : Z) (s s' : MySQL.server) (k : Z) :
  constrained s -> MySQL.delete r s = inr (s', k) -> constrained s'.
Proof.
  unfold constrained, MySQL.delete, MySQL.the_table, MySQL.registry, next_id.
  destruct (MySQL.hotel_db s) as [[t|]|]; try discriminate.
  intros (Hr & Hi & Hlt) H; injection H as <- _; simpl.
  repeat split; try (apply column_stays_unique; assumption).
  rewrite Forall_forall in *; intros x Hx.
  apply filter_In in Hx; apply Hlt, Hx.
Qed.

Lemma create_database_constrained (s s' : MySQL.server) :
  constrained s -> MySQL.create_database s = inr s' -> constrained s'.
Proof.
  unfold MySQL.create_database.
  destruct (MySQL.hotel_db s); [discriminate|].
  intros _ H; injection H as <-.
  unfold constrained; simpl; repeat split; constructor.
Qed.

Lemma create_table_constrained (s s' : MySQL.server) :
  constrained s -> MySQL.create_table_if_not_exists s = inr s' ->
  constrained s'.
Proof.
  unfold MySQL.create_table_if_not_exists.
  destruct (MySQL.hotel_db s) as [[t|]|] eqn:E; try discriminate;
    intros Hc H; injection H as <-; [exact Hc|].
  unfold constrained; simpl; repeat split; constructor.
Qed.

(** X23.  The constraints of the table hold after every run of [main]
    when they held before, whatever the schedule: no two records share a
    room number, no two share an id, and every id is below the counter
    from which the next one will be taken. *)
Theorem table_constraints_hold (w w' : world) (r : result unit) :
  constrained (server w) ->
  main w = Some (r, w') ->
  constrained (server w').
Proof.
  intros Hc Hmain.
  refine (main_preserves constrained _ _ _ _ _ w w' r Hmain Hc).
  - exact insert_constrained.
  - exact delete_constrained.
  - intros s t H; exact H.
  - exact create_database_constrained.
  - exact create_table_constrained.
Qed.

(** ** The rows of the listing *)

Lemma length_app (s1 s2 : string) :
  String.length (s1 ++ s2) = (String.length s1 + String.length s2)%nat.
Proof.
  induction s1 as [|ch s1 IH]; simpl; [reflexivity|].
  rewrite IH; reflexivity.
Qed.

Lemma length_repeat_char (ch : ascii) (k : nat) :
  String.length (Py.repeat (String ch EmptyString) k) = k.
Proof.
  induction k as [|k IH]; simpl; [reflexivity|].
  rewrite IH; reflexivity.
Qed.

Lemma length_ljust (k : nat) (s : string) :
  String.length (Py.ljust k s) = Nat.max k (String.length s).
Proof.
  unfold Py.ljust. rewrite length_app, length_repeat_char. lia.
Qed.

(** X24.  A row of the listing pads each field to the width of its
    column and never cuts it: its length is the sum of the five widths,
    each at least 5, 25, 15, 10 and 20, and of the four separators.  A
    row whose fields fit is 87 characters long, as the heading is. *)
Theorem listing_rows_are_padded
    (i : Z) (n c : string) (r : Z) (d : Py.datetime) :
  String.length (customer_line (i, n, c, r, d)) =
    (Nat.max 5 (String.length (Py.str i)) + Nat.max 25 (String.length n)
     + Nat.max 15 (String.length c) + Nat.max 10 (String.length (Py.str r))
     + Nat.max 20 (String.length (Py.strftime d)) + 12)%nat
  /\ String.length
       (Py.ljust 5 "ID" ++ " | " ++ Py.ljust 25 "Name" ++ " | "
        ++ Py.ljust 15 "Contact" ++ " | " ++ Py.ljust 10 "Room No."
        ++ " | " ++ Py.ljust 20 "Check-In Date") = 87%nat.
Proof.
  split; [|reflexivity].
  unfold customer_line.
  repeat rewrite length_app. repeat rewrite length_ljust.
  cbn [String.length]. lia.
Qed.

(** ** The properties on sample runs *)

Lemma second_check_in_conflicts_sample :
  let w := front_desk [alice] []
             ["Bob Lee"; "555-0101"; "2 Oak Ave"; "101"] in
  let w' := snd (check_in_customer desk w) in
  fst (check_in_customer desk w) = Return tt
  /\ MySQL.registry (server w') = [alice]
  /\ stdin w' = []
  /\ stdout w' =
       [Line (Py.nl ++ "--- New Customer Check-In ---");
        Prompt "Enter customer's full name: ";
        Prompt "Enter contact number: ";
        Prompt "Enter address: ";
        Prompt "Enter allocated room number: ";
        Line (Py.nl ++ "Error: Room number '101' is already in use.")]
  /\ sent w' = [INSERT "Bob Lee" "555-0101" "2 Oak Ave" 101].
Proof.
  destruct (second_check_in_conflicts desk
              (front_desk [alice] []
                 ["Bob Lee"; "555-0101"; "2 Oak Ave"; "101"])
              "Bob Lee" "555-0101" "2 Oak Ave" "101" 101 [])
    as (Hret & Hreg & Hin & _ & Hmsg & _).
  - repeat split; reflexivity.
  - reflexivity.
  - reflexivity.
  - reflexivity.
  - destruct Hmsg as (Hout & Hsent).
    + reflexivity.
    + reflexivity.
    + repeat split; assumption.
Defined.

(** Against C1 as stated.  Room 101 is occupied, and a check-in to 101
    is not answered with the room-already-in-use message: without a name
    the answer is the all-fields-required message and nothing is sent,
    and with a contact of 21 characters the answer is the error of the
    column. *)
Lemma occupied_room_without_conflict :
  let conflict :=
    Line (Py.nl ++ "Error: Room number '101' is already in use.") in
  let w := front_desk [alice] []
             [EmptyString; "555-0101"; "2 Oak Ave"; "101"] in
  let v := front_desk [alice] []
             ["Bob Lee"; "555-0101-555-0101-555"; "2 Oak Ave"; "101"] in
  MySQL.occupied 101 (MySQL.registry (server w)) = true
  /\ check_in_customer desk w =
       (Return tt,
        mkWorld (server w) [] [false; true] [] []
          [Line (Py.nl ++ "--- New Customer Check-In ---");
           Prompt "Enter customer's full name: ";
           Prompt "Enter contact number: ";
           Prompt "Enter address: ";
           Prompt "Enter allocated room number: ";
           Line "Error: All fields are required."])
  /\ ~ In conflict (stdout (snd (check_in_customer desk w)))
  /\ check_in_customer desk v =
       (Return tt,
        mkWorld (server v) [] [false; true]
          [INSERT "Bob Lee" "555-0101-555-0101-555" "2 Oak Ave" 101] []
          [Line (Py.nl ++ "--- New Customer Check-In ---");
           Prompt "Enter customer's full name: ";
           Prompt "Enter contact number: ";
           Prompt "Enter address: ";
           Prompt "Enter allocated room number: ";
           Line ("An error occurred: 1406 (22001): Data too long for "
                 ++ "column 'contact' at row 1")])
  /\ ~ In conflict (stdout (snd (check_in_customer desk v))).
Proof.
  cbv zeta.
  split; [reflexivity|]. split; [reflexivity|].
  split; [vm_compute; intuition discriminate|].
  split; [reflexivity|].
  vm_compute; intuition discriminate.
Qed.

Lemma check_in_then_find_round_trip_sample :
  let w := front_desk [] []
             ["Alice Tan"; "5                    "; "1 Main St"; "101"; "101"] in
  let w1 := snd (check_in_customer desk w) in
  let w2 := snd (find_customer desk w1) in
  MySQL.select_by_room 101 (server w1) =
    inr [(1, "Alice Tan", "5                   ", "1 Main St", 101, opening)]
  /\ fst (find_customer desk w1) = Return tt
  /\ stdout w2 =
       (stdout w1 ++
        [Line (Py.nl ++ "--- Find a Customer ---");
         Prompt "Enter the room number to find: ";
         Line (Py.nl ++ "Customer Found:");
         Line (Py.repeat "-" 20);
         Line ("  ID: " ++ Py.str 1);
         Line ("  Name: " ++ "Alice Tan");
         Line ("  Contact: " ++ "5                   ");
         Line ("  Address: " ++ "1 Main St");
         Line ("  Room Number: " ++ Py.str 101);
         Line ("  Check-In Date: " ++ Py.strftime opening);
         Line (Py.repeat "-" 20)])%list
  /\ server w2 = server w1.
Proof.
  destruct (check_in_then_find_round_trip desk
              (front_desk [] []
                 ["Alice Tan"; "5                    "; "1 Main St"; "101";
                  "101"])
              "Alice Tan" "5                    " "1 Main St" "101" "101"
              101 [])
    as (Hrow & Hret & Hout & Hsrv & _).
  - repeat split; reflexivity.
  - reflexivity.
  - reflexivity.
  - reflexivity.
  - reflexivity.
  - reflexivity.
  - reflexivity.
  - reflexivity.
  - reflexivity.
  - repeat split; assumption.
Defined.

(** Against C2 as stated.  A check-in to the vacant room 101 with a
    contact of 21 characters, a digit and 20 spaces, reports success, and
    the record that the look-up fetches holds a contact of 20 characters,
    which is not the input. *)
Lemma round_trip_alters_long_contact :
  let contact := "5                    " in
  let kept := "5                   " in
  let w := front_desk [] []
             ["Alice Tan"; contact; "1 Main St"; "101"; "101"] in
  let w1 := snd (check_in_customer desk w) in
  let w2 := snd (find_customer desk w1) in
  Py.truthy_str contact = true
  /\ MySQL.occupied 101 (MySQL.registry (server w)) = false
  /\ check_in_customer desk w =
       (Return tt,
        mkWorld
          (MySQL.mkServer
             (Some (Some (MySQL.mkTable
                [MySQL.mkCustomer 1 "Alice Tan" kept "1 Main St" 101 opening]
                2)))
             opening)
          [] [false; true]
          [INSERT "Alice Tan" contact "1 Main St" 101; COMMIT] ["101"]
          [Line (Py.nl ++ "--- New Customer Check-In ---");
           Prompt "Enter customer's full name: ";
           Prompt "Enter contact number: ";
           Prompt "Enter address: ";
           Prompt "Enter allocated room number: ";
           Line (Py.nl ++ "Success! Customer 'Alice Tan' checked into "
                 ++ "room 101.")])
  /\ MySQL.select_by_room 101 (server w1) =
       inr [(1, "Alice Tan", kept, "1 Main St", 101, opening)]
  /\ In (Line ("  Contact: " ++ kept)) (stdout w2)
  /\ String.length contact = 21%nat
  /\ String.length kept = 20%nat
  /\ kept <> contact.
Proof.
  cbv zeta.
  split; [reflexivity|]. split; [reflexivity|].
  split; [vm_compute; reflexivity|].
  split; [vm_compute; reflexivity|].
  split; [vm_compute; repeat (first [left; reflexivity | right])|].
  split; [reflexivity|]. split; [reflexivity|].
  intros H; discriminate H.
Qed.
Lemma vacant_room_is_not_found_sample :
  let w := front_desk [alice] [] ["220"] in
  find_customer desk w =
    (Return tt,
     mkWorld (server w) (tl (schedule w)) (sessions w)
       (sent w ++ [SELECT_BY_ROOM 220])%list []
       (stdout w ++
        [Line (Py.nl ++ "--- Find a Customer ---");
         Prompt "Enter the room number to find: ";
         Line ("No customer found in room number " ++ Py.str 220 ++ ".")])%list)
  /\ check_out_customer desk w =
    (Return tt,
     mkWorld (server w) (tl (schedule w)) (sessions w)
       (sent w ++ [SELECT_NAME 220])%list []
       (stdout w ++
        [Line (Py.nl ++ "--- Customer Check-Out ---");
         Prompt "Enter room number for check-out: ";
         Line ("Error: Room " ++ Py.str 220 ++ " is not occupied.")])%list).
Proof.
  apply (vacant_room_is_not_found desk (front_desk [alice] [] ["220"])
           "220" 220 []).
  - repeat split; reflexivity.
  - reflexivity.
  - reflexivity.
  - reflexivity.
Defined.

Lemma declined_check_out_is_cancelled_sample :
  let w := front_desk [alice] [] ["101"; "no"] in
  exists guest,
    fetchone (MySQL.where_room_number 101 (MySQL.registry (server w)))
      = Some guest
    /\ check_out_customer desk w =
      (Return tt,
       mkWorld (server w) (tl (schedule w)) (sessions w)
         (sent w ++ [SELECT_NAME 101])%list []
         (stdout w ++
          [Line (Py.nl ++ "--- Customer Check-Out ---");
           Prompt "Enter room number for check-out: ";
           Prompt ("Check out customer '" ++ MySQL.name guest
                   ++ "' from room " ++ Py.str 101 ++ "? (y/n): ");
           Line "Check-out cancelled."])%list).
Proof.
  apply (declined_check_out_is_cancelled desk
           (front_desk [alice] [] ["101"; "no"]) "101" "no" 101 []).
  - repeat split; reflexivity.
  - reflexivity.
  - reflexivity.
  - reflexivity.
  - reflexivity.
Defined.

Lemma vanished_record_is_not_a_success_sample :
  let w := front_desk [alice]
             [MySQL.mkEvent [] None;
              MySQL.mkEvent [MySQL.OtherCheckOut 101] None]
             ["101"; "y"] in
  let s1 := MySQL.meanwhile (MySQL.mkEvent [] None) (server w) in
  let s2 := MySQL.meanwhile
              (MySQL.mkEvent [MySQL.OtherCheckOut 101] None) s1 in
  let w' := snd (check_out_customer desk w) in
  exists guest,
    fetchone (MySQL.where_room_number 101 (MySQL.registry s1)) = Some guest
    /\ fst (check_out_customer desk w) = Return tt
    /\ stdout w' =
         (stdout w ++
          [Line (Py.nl ++ "--- Customer Check-Out ---");
           Prompt "Enter room number for check-out: ";
           Prompt ("Check out customer '" ++ MySQL.name guest
                   ++ "' from room " ++ Py.str 101 ++ "? (y/n): ");
           Line "Could not process check-out."])%list
    /\ sent w' = (sent w ++ [SELECT_NAME 101; DELETE 101; COMMIT])%list
    /\ MySQL.registry (server w') = MySQL.registry s2.
Proof.
  apply (vanished_record_is_not_a_success desk
           (front_desk [alice]
              [MySQL.mkEvent [] None;
               MySQL.mkEvent [MySQL.OtherCheckOut 101] None]
              ["101"; "y"])
           "101" "y" 101 []
           (MySQL.mkEvent [] None)
           (MySQL.mkEvent [MySQL.OtherCheckOut 101] None) []).
  - reflexivity.
  - reflexivity.
  - reflexivity.
  - reflexivity.
  - reflexivity.
  - reflexivity.
  - reflexivity.
  - reflexivity.
  - reflexivity.
  - reflexivity.
  - reflexivity.
Defined.

Lemma view_lists_every_record_by_room_sample :
  let w := front_desk [carol; alice; dan] [] [] in
  let w' := snd (view_all_customers desk w) in
  exists customers,
    Permutation customers (MySQL.registry (server w))
    /\ Sorted by_room customers
    /\ MySQL.select_all (server w) = inr (map listed customers)
    /\ fst (view_all_customers desk w) = Return tt
    /\ server w' = server w
    /\ stdout w' =
         (stdout w ++
          Line (Py.nl ++ "--- All Checked-In Customers ---") ::
          match customers with
          | [] => [Line "No customers are currently checked in."]
          | _ :: _ =>
              Line (Py.ljust 5 "ID" ++ " | " ++ Py.ljust 25 "Name" ++ " | "
                    ++ Py.ljust 15 "Contact" ++ " | "
                    ++ Py.ljust 10 "Room No." ++ " | "
                    ++ Py.ljust 20 "Check-In Date") ::
              Line (Py.repeat "-" 85) ::
              map (fun c => Line (customer_line (listed c))) customers
          end)%list.
Proof.
  apply (view_lists_every_record_by_room desk
           (front_desk [carol; alice; dan] [] [])).
  repeat split; reflexivity.
Defined.

Lemma unparsable_room_touches_nothing_sample :
  let w := front_desk [alice] [] ["abc"] in
  find_customer desk w =
    (Return tt,
     mkWorld (server w) (schedule w) (sessions w) (sent w) []
       (stdout w ++
        [Line (Py.nl ++ "--- Find a Customer ---");
         Prompt "Enter the room number to find: ";
         Line "Invalid input. Please enter a valid room number."])%list)
  /\ check_out_customer desk w =
    (Return tt,
     mkWorld (server w) (schedule w) (sessions w) (sent w) []
       (stdout w ++
        [Line (Py.nl ++ "--- Customer Check-Out ---");
         Prompt "Enter room number for check-out: ";
         Line "Invalid input. Please enter a valid room number."])%list).
Proof.
  apply (unparsable_room_touches_nothing desk (front_desk [alice] [] ["abc"])
           "abc" []).
  - reflexivity.
  - reflexivity.
Defined.

Lemma provisioning_is_idempotent_sample :
  let w := fresh [] in
  let err := MySQL.mkError 1044
               "1044 (42000): Access denied for user to database 'hotel_db'" in
  (exists c1 w1 c2 w2,
     setup_database w = (Return (Some c1), w1)
     /\ setup_database w1 = (Return (Some c2), w2)
     /\ serving c1 w1 /\ serving c2 w2
     /\ MySQL.registry (server w1) = MySQL.registry (server w)
     /\ server w2 = server w1
     /\ exists e,
          MySQL.create_database (server w1) = inl e
          /\ MySQL.errno e = MySQL.ER_DB_CREATE_EXISTS)
  /\ (let refused :=
        with_schedule [MySQL.mkEvent [] None; MySQL.mkEvent [] (Some err)] w in
      fst (setup_database refused) = Return None
      /\ server (snd (setup_database refused)) = server w
      /\ stdout (snd (setup_database refused)) =
           (stdout w ++
            [Line ("Database setup error: " ++ MySQL.errtext err)])%list).
Proof.
  apply (provisioning_is_idempotent (fresh [])
           (MySQL.mkError 1044
              "1044 (42000): Access denied for user to database 'hotel_db'")).
  - reflexivity.
  - unfold MySQL.ER_DB_CREATE_EXISTS; simpl; lia.
Defined.

Lemma room_zero_is_a_missing_field_sample :
  let w := front_desk [] [] ["Alice Tan"; "555-0100"; "1 Main St"; "0"] in
  check_in_customer desk w =
    (Return tt,
     mkWorld (server w) (schedule w) (sessions w) (sent w) []
       (stdout w ++
        [Line (Py.nl ++ "--- New Customer Check-In ---");
         Prompt "Enter customer's full name: ";
         Prompt "Enter contact number: ";
         Prompt "Enter address: ";
         Prompt "Enter allocated room number: ";
         Line "Error: All fields are required."])%list).
Proof.
  apply (room_zero_is_a_missing_field desk
           (front_desk [] [] ["Alice Tan"; "555-0100"; "1 Main St"; "0"])
           "Alice Tan" "555-0100" "1 Main St" "0" []).
  - reflexivity.
  - reflexivity.
  - reflexivity.
  - reflexivity.
  - reflexivity.
Defined.

Lemma confirmed_check_out_vacates_sample :
  let w := front_desk [alice] [] ["101"; "Y"] in
  let w' := snd (check_out_customer desk w) in
  exists guest,
    fetchone (MySQL.where_room_number 101 (MySQL.registry (server w)))
      = Some guest
    /\ fst (check_out_customer desk w) = Return tt
    /\ stdout w' =
         (stdout w ++
          [Line (Py.nl ++ "--- Customer Check-Out ---");
           Prompt "Enter room number for check-out: ";
           Prompt ("Check out customer '" ++ MySQL.name guest
                   ++ "' from room " ++ Py.str 101 ++ "? (y/n): ");
           Line ("Success! Customer from room " ++ Py.str 101
                 ++ " has been checked out.")])%list
    /\ sent w' = (sent w ++ [SELECT_NAME 101; DELETE 101; COMMIT])%list
    /\ MySQL.registry (server w') =
         filter (fun c => negb (MySQL.room_number c =? 101))
           (MySQL.registry (server w))
    /\ MySQL.occupied 101 (MySQL.registry (server w')) = false
    /\ serving desk w'.
Proof.
  apply (confirmed_check_out_vacates desk (front_desk [alice] [] ["101"; "Y"])
           "101" "Y" 101 []).
  - repeat split; reflexivity.
  - reflexivity.
  - reflexivity.
  - reflexivity.
  - reflexivity.
Defined.


(** The scenario of a day at the desk: Alice checks into 101, Bob is
    refused 101, a declined check-out keeps Alice, a confirmed one removes
    her, and room 101 is then found empty. *)
Example a_day_at_the_desk :
  exists w',
    main (fresh ["1"; "Alice Tan"; "555-0100"; "1 Main St"; "101";
                 "1"; "Bob Lee"; "555-0101"; "2 Oak Ave"; "101";
                 "4"; "101"; "n";
                 "4"; "101"; "y";
                 "3"; "101";
                 "5"]) = Some (Return tt, w')
    /\ sent w' =
         [CONNECT; CREATE_DATABASE; CONNECT_DATABASE;
          CREATE_TABLE_IF_NOT_EXISTS;
          INSERT "Alice Tan" "555-0100" "1 Main St" 101; COMMIT;
          INSERT "Bob Lee" "555-0101" "2 Oak Ave" 101;
          SELECT_NAME 101;
          SELECT_NAME 101; DELETE 101; COMMIT;
          SELECT_BY_ROOM 101]
    /\ MySQL.registry (server w') = []
    /\ sessions w' = [false; false].
Proof.
  eexists; split; [vm_compute; reflexivity|].
  repeat split; reflexivity.
Qed.

(** Ordering: after check-ins to rooms 305, 101 and 220 the listing
    fetches 101, 220, 305. *)
Example listing_is_ordered :
  exists w',
    main (fresh ["1"; "Carol Diaz"; "555-0102"; "3 Elm Rd"; "305";
                 "1"; "Alice Tan"; "555-0100"; "1 Main St"; "101";
                 "1"; "Dan Wu"; "555-0103"; "4 Pine Ct"; "220";
                 "5"]) = Some (Return tt, w')
    /\ MySQL.select_all (server w') =
         inr [(2, "Alice Tan", "555-0100", 101, opening);
              (3, "Dan Wu", "555-0103", 220, opening);
              (1, "Carol Diaz", "555-0102", 305, opening)].
Proof.
  eexists; split; [vm_compute; reflexivity | reflexivity].
Qed.

(** ** Further sample runs *)

Lemma normal_exit_closes_the_session_sample :
  exists w',
    main (fresh ["5"]) = Some (Return tt, w')
    /\ nth desk (sessions w') false = false.
Proof.
  eexists; split; [vm_compute; reflexivity|].
  eapply (normal_exit_closes_the_session (fresh ["5"]) _ _ desk).
  - vm_compute; reflexivity.
  - vm_compute; reflexivity.
Defined.

Lemma exception_leaves_the_session_open_sample :
  exists w',
    main (fresh ["3"]) = Some (Raise EOFError, w')
    /\ nth desk (sessions w') false = true.
Proof.
  eexists; split; [vm_compute; reflexivity|].
  eapply (exception_leaves_the_session_open (fresh ["3"]) _ _ desk EOFError).
  - vm_compute; reflexivity.
  - vm_compute; reflexivity.
Defined.

Lemma registry_holds_check_ins_sample :
  exists w',
    main (fresh ["1"; "Alice Tan"; "555-0100"; "1 Main St"; "101"; "5"])
      = Some (Return tt, w')
    /\ checked_in (MySQL.registry (server w')).
Proof.
  eexists; split; [vm_compute; reflexivity|].
  eapply (registry_holds_check_ins
            (fresh ["1"; "Alice Tan"; "555-0100"; "1 Main St"; "101"; "5"])
            _ (Return tt)).
  - constructor.
  - vm_compute; reflexivity.
Defined.

Lemma check_in_stores_the_guest_sample :
  let w := front_desk [alice] []
             ["Dan Wu"; "555-0103"; "4 Pine Ct"; "220"] in
  let w' := snd (check_in_customer desk w) in
  fst (check_in_customer desk w) = Return tt
  /\ MySQL.registry (server w') =
       [alice; MySQL.mkCustomer 2 "Dan Wu" "555-0103" "4 Pine Ct" 220 opening]
  /\ next_id (server w') = 3
  /\ sent w' = [INSERT "Dan Wu" "555-0103" "4 Pine Ct" 220; COMMIT]
  /\ stdin w' = []
  /\ stdout w' =
       [Line (Py.nl ++ "--- New Customer Check-In ---");
        Prompt "Enter customer's full name: ";
        Prompt "Enter contact number: ";
        Prompt "Enter address: ";
        Prompt "Enter allocated room number: ";
        Line (Py.nl ++ "Success! Customer 'Dan Wu' checked into room 220.")].
Proof.
  apply (check_in_stores_the_guest desk
           (front_desk [alice] [] ["Dan Wu"; "555-0103"; "4 Pine Ct"; "220"])
           "Dan Wu" "555-0103" "4 Pine Ct" "220" 220 []).
  - repeat split; reflexivity.
  - reflexivity.
  - reflexivity.
  - reflexivity.
  - reflexivity.
  - reflexivity.
Defined.

Lemma missing_field_is_rejected_sample :
  let w := front_desk [] [] [EmptyString; "555-0100"; "1 Main St"; "101"] in
  check_in_customer desk w =
    (Return tt,
     mkWorld (server w) (schedule w) (sessions w) (sent w) []
       (stdout w ++
        [Line (Py.nl ++ "--- New Customer Check-In ---");
         Prompt "Enter customer's full name: ";
         Prompt "Enter contact number: ";
         Prompt "Enter address: ";
         Prompt "Enter allocated room number: ";
         Line "Error: All fields are required."])%list).
Proof.
  apply (missing_field_is_rejected desk
           (front_desk [] [] [EmptyString; "555-0100"; "1 Main St"; "101"])
           EmptyString "555-0100" "1 Main St" "101" 101 []).
  - reflexivity.
  - reflexivity.
  - reflexivity.
Defined.

Lemma unparsable_room_at_check_in_sample :
  let w := front_desk [] [] ["Alice Tan"; "555-0100"; "1 Main St"; "10A"] in
  check_in_customer desk w =
    (Return tt,
     mkWorld (server w) (schedule w) (sessions w) (sent w) []
       (stdout w ++
        [Line (Py.nl ++ "--- New Customer Check-In ---");
         Prompt "Enter customer's full name: ";
         Prompt "Enter contact number: ";
         Prompt "Enter address: ";
         Prompt "Enter allocated room number: ";
         Line (Py.nl
               ++ "Invalid input. Room number must be an integer.")])%list).
Proof.
  apply (unparsable_room_at_check_in desk
           (front_desk [] [] ["Alice Tan"; "555-0100"; "1 Main St"; "10A"])
           "Alice Tan" "555-0100" "1 Main St" "10A" []).
  - reflexivity.
  - reflexivity.
Defined.

Lemma check_in_needs_four_lines_sample :
  let w := front_desk [alice] [] ["Bob Lee"; "555-0101"] in
  let w' := snd (check_in_customer desk w) in
  fst (check_in_customer desk w) = Raise EOFError
  /\ server w' = server w
  /\ schedule w' = schedule w
  /\ sessions w' = sessions w
  /\ sent w' = sent w
  /\ stdin w' = [].
Proof.
  apply (check_in_needs_four_lines desk
           (front_desk [alice] [] ["Bob Lee"; "555-0101"])).
  simpl; lia.
Defined.

Lemma failed_insert_is_reported_sample :
  let e := MySQL.mkEvent [] (Some gone_away) in
  let w := front_desk [] [e] ["Alice Tan"; "555-0100"; "1 Main St"; "101"] in
  check_in_customer desk w =
    (Return tt,
     mkWorld (MySQL.meanwhile e (server w)) [] (sessions w)
       (sent w ++ [INSERT "Alice Tan" "555-0100" "1 Main St" 101])%list []
       (stdout w ++
        [Line (Py.nl ++ "--- New Customer Check-In ---");
         Prompt "Enter customer's full name: ";
         Prompt "Enter contact number: ";
         Prompt "Enter address: ";
         Prompt "Enter allocated room number: ";
         Line ("An error occurred: " ++ MySQL.errtext gone_away)])%list).
Proof.
  apply (failed_insert_is_reported desk
           (front_desk [] [MySQL.mkEvent [] (Some gone_away)]
              ["Alice Tan"; "555-0100"; "1 Main St"; "101"])
           "Alice Tan" "555-0100" "1 Main St" "101" 101 []
           (MySQL.mkEvent [] (Some gone_away)) [] gone_away).
  - reflexivity.
  - reflexivity.
  - reflexivity.
  - reflexivity.
  - reflexivity.
  - reflexivity.
  - reflexivity.
Defined.

Lemma find_shows_the_occupant_sample :
  let w := front_desk [carol; alice] [] ["101"] in
  exists guest,
    In guest (MySQL.registry (server w))
    /\ MySQL.room_number guest = 101
    /\ find_customer desk w =
      (Return tt,
       mkWorld (server w) (tl (schedule w)) (sessions w)
         (sent w ++ [SELECT_BY_ROOM 101])%list []
         (stdout w ++
          [Line (Py.nl ++ "--- Find a Customer ---");
           Prompt "Enter the room number to find: ";
           Line (Py.nl ++ "Customer Found:");
           Line (Py.repeat "-" 20);
           Line ("  ID: " ++ Py.str (MySQL.id guest));
           Line ("  Name: " ++ MySQL.name guest);
           Line ("  Contact: " ++ MySQL.contact guest);
           Line ("  Address: " ++ MySQL.address guest);
           Line ("  Room Number: " ++ Py.str 101);
           Line ("  Check-In Date: "
                 ++ Py.strftime (MySQL.check_in_date guest));
           Line (Py.repeat "-" 20)])%list).
Proof.
  apply (find_shows_the_occupant desk (front_desk [carol; alice] [] ["101"])
           "101" 101 []).
  - repeat split; reflexivity.
  - reflexivity.
  - reflexivity.
  - reflexivity.
Defined.

Lemma only_y_confirms_sample :
  let w := front_desk [alice] [] ["101"; "yes"] in
  let w' := snd (check_out_customer desk w) in
  (MySQL.occupied 101 (MySQL.registry (server w')) = false
   <-> "yes" = "y" \/ "yes" = "Y")
  /\ (In (DELETE 101) (sent w') <-> In (DELETE 101) (sent w)
                                    \/ "yes" = "y" \/ "yes" = "Y").
Proof.
  apply (only_y_confirms desk (front_desk [alice] [] ["101"; "yes"])
           "101" "yes" 101 []).
  - repeat split; reflexivity.
  - reflexivity.
  - reflexivity.
  - reflexivity.
Defined.

Lemma check_in_then_check_out_restores_sample :
  let w := front_desk [alice] []
             ["Dan Wu"; "555-0103"; "4 Pine Ct"; "220"; "220"; "y"] in
  let w1 := snd (check_in_customer desk w) in
  let w2 := snd (check_out_customer desk w1) in
  fst (check_in_customer desk w) = Return tt
  /\ fst (check_out_customer desk w1) = Return tt
  /\ MySQL.registry (server w2) = MySQL.registry (server w)
  /\ next_id (server w2) = next_id (server w) + 1
  /\ sent w2 =
       (sent w ++ [INSERT "Dan Wu" "555-0103" "4 Pine Ct" 220; COMMIT;
                   SELECT_NAME 220; DELETE 220; COMMIT])%list
  /\ stdin w2 = [].
Proof.
  apply (check_in_then_check_out_restores desk
           (front_desk [alice] []
              ["Dan Wu"; "555-0103"; "4 Pine Ct"; "220"; "220"; "y"])
           "Dan Wu" "555-0103" "4 Pine Ct" "220" "220" "y" 220 []).
  - repeat split; reflexivity.
  - reflexivity.
  - reflexivity.
  - reflexivity.
  - reflexivity.
  - reflexivity.
  - reflexivity.
  - reflexivity.
Defined.

Lemma store_errors_stay_in_the_loop_sample :
  let w := front_desk [alice] [MySQL.mkEvent [] (Some gone_away)] ["2"] in
  exists w' e,
    loop 2 desk w = Some (Raise e, w')
    /\ (forall err, e <> Error err)
    /\ stdout w' =
         (menu_lines ++
          [Line (Py.nl ++ "--- All Checked-In Customers ---");
           Line ("An error occurred while fetching data: "
                 ++ MySQL.errtext gone_away)] ++
          menu_lines)%list.
Proof.
  eexists; eexists; split; [vm_compute; reflexivity|].
  split; [|vm_compute; reflexivity].
  eapply (store_errors_stay_in_the_loop 2 desk
            (front_desk [alice] [MySQL.mkEvent [] (Some gone_away)] ["2"])).
  vm_compute; reflexivity.
Defined.

Lemma no_delete_without_confirmation_sample :
  let w := front_desk [alice] [] ["101"; "Y"] in
  In (DELETE 101) (sent w)
  \/ exists text answer rest,
       stdin w = text :: answer :: rest
       /\ Py.int text = Some 101
       /\ (answer = "y" \/ answer = "Y").
Proof.
  apply (no_delete_without_confirmation desk
           (front_desk [alice] [] ["101"; "Y"]) 101).
  vm_compute; auto.
Defined.

Lemma refused_connection_ends_main_sample :
  let e := MySQL.mkEvent [] (Some gone_away) in
  let w := with_schedule [e] (fresh ["1"; "Alice Tan"]) in
  main w =
    Some (Return tt,
          mkWorld (MySQL.meanwhile e (server w)) [] (sessions w)
            (sent w ++ [CONNECT])%list (stdin w)
            (stdout w ++
             [Line ("Database setup error: " ++ MySQL.errtext gone_away);
              Line "Exiting due to database connection failure."])%list).
Proof.
  apply (refused_connection_ends_main
           (with_schedule [MySQL.mkEvent [] (Some gone_away)]
              (fresh ["1"; "Alice Tan"]))
           (MySQL.mkEvent [] (Some gone_away)) [] gone_away).
  - reflexivity.
  - reflexivity.
Defined.

Lemma failed_creation_leaves_a_session_open_sample :
  let w := with_schedule
             [MySQL.mkEvent [] None; MySQL.mkEvent [] (Some gone_away)]
             (fresh []) in
  let w' := snd (setup_database w) in
  fst (setup_database w) = Return None
  /\ sessions w' = (sessions w ++ [true])%list
  /\ sent w' = (sent w ++ [CONNECT; CREATE_DATABASE])%list
  /\ stdout w' =
       (stdout w ++
        [Line ("Database setup error: " ++ MySQL.errtext gone_away)])%list.
Proof.
  apply (failed_creation_leaves_a_session_open
           (with_schedule
              [MySQL.mkEvent [] None; MySQL.mkEvent [] (Some gone_away)]
              (fresh []))
           (MySQL.mkEvent [] None) (MySQL.mkEvent [] (Some gone_away)) []
           gone_away).
  - reflexivity.
  - reflexivity.
  - reflexivity.
  - unfold MySQL.ER_DB_CREATE_EXISTS; simpl; lia.
Defined.

Lemma invalid_choice_changes_nothing_sample :
  let w := front_desk [alice] [] [" 1"; "5"] in
  iteration desk w =
    (Return false,
     mkWorld (server w) (schedule w) (sessions w) (sent w) ["5"]
       (stdout w ++ menu_lines
        ++ [Line "Invalid choice. Please select a valid option."])%list).
Proof.
  apply (invalid_choice_changes_nothing desk
           (front_desk [alice] [] [" 1"; "5"]) " 1" ["5"]).
  - reflexivity.
  - simpl; intros H; decompose [or] H; try discriminate; assumption.
Defined.

Lemma exit_at_the_first_menu_sample :
  let w := fresh ["5"; "1"] in
  exists conn w',
    main w = Some (Return tt, w')
    /\ fst (setup_database w) = Return (Some conn)
    /\ nth conn (sessions w') false = false
    /\ MySQL.registry (server w') = MySQL.registry (server w)
    /\ sent w' =
         (sent w ++ [CONNECT; CREATE_DATABASE; CONNECT_DATABASE;
                     CREATE_TABLE_IF_NOT_EXISTS])%list
    /\ stdin w' = ["1"]
    /\ stdout w' =
         (stdout w ++
          [Line "Ensuring 'customers' table exists...";
           Line "Database and table are ready."]
          ++ menu_lines
          ++ [Line "Exiting the system. Goodbye!";
              Line "MySQL connection is closed."])%list.
Proof.
  apply (exit_at_the_first_menu (fresh ["5"; "1"]) ["1"]).
  - reflexivity.
  - reflexivity.
Defined.

Lemma table_constraints_hold_sample :
  exists w',
    main (fresh ["1"; "Alice Tan"; "555-0100"; "1 Main St"; "101";
                 "1"; "Bob Lee"; "555-0101"; "2 Oak Ave"; "101"; "5"])
      = Some (Return tt, w')
    /\ constrained (server w').
Proof.
  eexists; split; [vm_compute; reflexivity|].
  eapply (table_constraints_hold
            (fresh ["1"; "Alice Tan"; "555-0100"; "1 Main St"; "101";
                    "1"; "Bob Lee"; "555-0101"; "2 Oak Ave"; "101"; "5"])
            _ (Return tt)).
  - repeat split; constructor.
  - vm_compute; reflexivity.
Defined.

Lemma check_in_stores_what_the_columns_keep_sample :
  let w := front_desk [alice] []
             ["Dan Wu"; "5                    "; "4 Pine Ct"; "220"] in
  check_in_customer desk w =
    (Return tt,
     mkWorld
       (MySQL.mkServer
          (Some (Some (MySQL.mkTable
             [alice;
              MySQL.mkCustomer 2 "Dan Wu" "5                   " "4 Pine Ct"
                220 opening]
             3)))
          opening)
       [] [false; true]
       [INSERT "Dan Wu" "5                    " "4 Pine Ct" 220; COMMIT] []
       [Line (Py.nl ++ "--- New Customer Check-In ---");
        Prompt "Enter customer's full name: ";
        Prompt "Enter contact number: ";
        Prompt "Enter address: ";
        Prompt "Enter allocated room number: ";
        Line (Py.nl ++ "Success! Customer 'Dan Wu' checked into room 220.")]).
Proof.
  apply (check_in_stores_what_the_columns_keep desk
           (front_desk [alice] []
              ["Dan Wu"; "5                    "; "4 Pine Ct"; "220"])
           "Dan Wu" "5                    " "4 Pine Ct" "220" 220 []).
  - repeat split; reflexivity.
  - reflexivity.
  - reflexivity.
  - reflexivity.
  - reflexivity.
  - reflexivity.
Defined.

Lemma refused_value_is_reported_sample :
  let w := front_desk [alice] []
             ["Dan Wu"; "555-0103"; "4 Pine Ct"; "2147483648"] in
  check_in_customer desk w =
    (Return tt,
     mkWorld (server w) [] [false; true]
       [INSERT "Dan Wu" "555-0103" "4 Pine Ct" 2147483648] []
       [Line (Py.nl ++ "--- New Customer Check-In ---");
        Prompt "Enter customer's full name: ";
        Prompt "Enter contact number: ";
        Prompt "Enter address: ";
        Prompt "Enter allocated room number: ";
        Line ("An error occurred: 1264 (22003): Out of range value for "
              ++ "column 'room_number' at row 1")]).
Proof.
  apply (refused_value_is_reported desk
           (front_desk [alice] []
              ["Dan Wu"; "555-0103"; "4 Pine Ct"; "2147483648"])
           "Dan Wu" "555-0103" "4 Pine Ct" "2147483648" 2147483648 []
           (MySQL.mkError 1264
              ("1264 (22003): Out of range value for column 'room_number'"
               ++ " at row 1"))).
  - repeat split; reflexivity.
  - reflexivity.
  - reflexivity.
  - reflexivity.
  - reflexivity.
Defined.
